(** * AcneSense ([jerawat.py]): decision pipeline and progress journal

    A shallow embedding of the parts of [jerawat.py] that decide something:
    the skin-type map and the recommendation lookup (lines 140-147 and
    726-738), the arg-max classification and the label normalisation
    (lines 646-658), and the progress journal (lines 30-46 and 845-903).

    Conventions.
    - Python [str] values are [string]s; the labels, table keys and
      timestamps of the application are ASCII text.
    - A pandas [DataFrame] is the list of its rows in index order; a
      boolean-mask selection [df[mask]] is [filter], [.empty] is "is the
      list empty" and [.iloc[0]] is the head.
    - A Python [dict] with string keys is a [gmap string _].
    - Softmax scores are finite numbers, taken as rationals ([Q]); a
      prediction is the two dimensional array that [model.predict]
      returns, one row per image.
    - Code that can raise returns a [result]; the journal, which mutates a
      module-level list and the file system, runs in a state monad whose
      state survives a raised exception. *)

From Stdlib Require Import QArith Ascii Sorted.
From stdpp Require Import gmap strings list fin_maps.

Local Open Scope string_scope.
Local Open Scope list_scope.
Local Open Scope stdpp_scope.

(** ** Skin-type map and recommendation lookup *)

Module Recommendation.

(** [SKIN_TYPE_MAP_TO_CSV], lines 140-147. *)
Definition SKIN_TYPE_MAP_TO_CSV : gmap string string :=
  <["Normal" := "semua"]>
  (<["Berminyak" := "oily"]>
  (<["Kering" := "semua"]>
  (<["Kombinasi" := "semua"]>
  (<["Sensitive" := "semua"]>
  (<["Tidak Tahu / Lewati" := "semua"]> ∅))))).

(** The options of the [st.selectbox] of line 573, in display order. *)
Definition skin_type_options : list string :=
  ["Tidak Tahu / Lewati"; "Normal"; "Berminyak"; "Kering"; "Kombinasi";
   "Sensitive"].

(** One row of [pengobatan.csv] after [load_recommendation_data]; an empty
    CSV cell (pandas [NaN]) in the two text columns is [None]. *)
Record Row := {
  tingkat : string;
  jenis_kulit : string;
  kandungan : option string;
  rekomendasi : option string
}.

#[global] Instance Row_eq_dec : EqDecision Row.
Proof. solve_decision. Defined.

Abbreviation DataFrame := (list Row).

(** Line 726: [SKIN_TYPE_MAP_TO_CSV.get(skin_type, "semua")]. *)
Definition user_skin_type_csv (skin_type : string) : string :=
  default "semua" (SKIN_TYPE_MAP_TO_CSV !! skin_type).

(** Line 728: [df_pengobatan[df_pengobatan['tingkat'] == acne_class_for_csv]]. *)
Definition filtered_by_acne (df : DataFrame) (acne_class_for_csv : string)
  : DataFrame :=
  filter (λ r, tingkat r = acne_class_for_csv) df.

(** Lines 732 and 736: selection on the ['jenis kulit'] column. *)
Definition by_skin (rows : DataFrame) (key : string) : DataFrame :=
  filter (λ r, jenis_kulit r = key) rows.

(** Lines 730-738, for an already mapped skin-type key. *)
Definition recom_row_for (df : DataFrame) (acne_class_for_csv key : string)
  : option Row :=
  let filtered := filtered_by_acne df acne_class_for_csv in
  let specific_skin_recom := by_skin filtered key in
  match specific_skin_recom with
  | r :: _ => Some r
  | [] =>
      let general_skin_recom := by_skin filtered "semua" in
      match general_skin_recom with
      | r :: _ => Some r
      | [] => None
      end
  end.

(** Lines 726-738: the whole lookup, from the user's selection. *)
Definition recom_row (df : DataFrame) (acne_class_for_csv skin_type : string)
  : option Row :=
  recom_row_for df acne_class_for_csv (user_skin_type_csv skin_type).

(** [r] is the first row of [df], in table order, for the given acne type
    and skin-type key. *)
Definition first_match (df : DataFrame) (acne key : string) (r : Row) : Prop :=
  ∃ before after,
    df = before ++ r :: after ∧
    tingkat r = acne ∧ jenis_kulit r = key ∧
    ∀ r', r' ∈ before → ¬ (tingkat r' = acne ∧ jenis_kulit r' = key).

(** No row of [df] has the given acne type and skin-type key. *)
Definition no_match (df : DataFrame) (acne key : string) : Prop :=
  ∀ r, r ∈ df → ¬ (tingkat r = acne ∧ jenis_kulit r = key).

End Recommendation.

(** ** Exceptions *)

(** The Python exceptions that the modelled code can meet.
    [RerunException] is what [st.experimental_rerun()] raises to stop the
    script; it derives from [BaseException], not from [Exception].
    [DuplicateWidgetID] is what Streamlit raises when a second widget is
    created with a key already used in the run. *)
Inductive exn :=
| ValueError | IndexError | OSError | RerunException | DuplicateWidgetID.

#[global] Instance exn_eq_dec : EqDecision exn.
Proof. solve_decision. Defined.

(** What [except Exception] catches. *)
Definition is_Exception (e : exn) : bool :=
  match e with RerunException => false | _ => true end.

Inductive result (A : Type) : Type :=
| Ok (a : A)
| Raise (e : exn).
Arguments Ok {A} a.
Arguments Raise {A} e.

#[global] Instance result_ret : MRet result := λ A a, Ok a.
#[global] Instance result_bind : MBind result := λ A B f m,
  match m with Ok a => f a | Raise e => Raise e end.

(** [l[i]] for a Python list or a one-dimensional array and [i >= 0]. *)
Definition getitem {A} (l : list A) (i : nat) : result A :=
  match l !! i with Some x => Ok x | None => Raise IndexError end.

(** ** Classification: arg-max and label normalisation *)

Module Inference.

(** A softmax score. *)
Abbreviation score := Q.

(** The scan of [np.argmax] over a flat array: [mp] is the running maximum,
    [max_ind] its position and [i] the position of the head of [ip]; the
    maximum moves only to a strictly larger element. *)
Fixpoint argmax_scan (mp : score) (max_ind i : nat) (ip : list score) : nat :=
  match ip with
  | [] => max_ind
  | x :: ip' =>
      if Qle_bool x mp then argmax_scan mp max_ind (S i) ip'
      else argmax_scan x i (S i) ip'
  end.

(** [np.argmax(a)] with no axis: the index into the flattened array; an
    empty array raises [ValueError]. *)
Definition np_argmax (a : list (list score)) : result nat :=
  match concat a with
  | [] => Raise ValueError
  | x :: ip => Ok (argmax_scan x 0 1 ip)
  end.

(** [str.isspace] on ASCII: tab, line feed, vertical tab, form feed,
    carriage return, the four separators 28-31 and the space. *)
Definition is_space (c : ascii) : bool :=
  let n := nat_of_ascii c in
  (Nat.leb 9 n && Nat.leb n 13) || (Nat.leb 28 n && Nat.leb n 32).

Fixpoint lstrip (s : string) : string :=
  match s with
  | String c s' => if is_space c then lstrip s' else s
  | EmptyString => EmptyString
  end.

(** [s.strip()]. *)
Definition strip (s : string) : string :=
  String.rev (lstrip (String.rev (lstrip s))).

Definition lower_ascii (c : ascii) : ascii :=
  let n := nat_of_ascii c in
  if Nat.leb 65 n && Nat.leb n 90 then ascii_of_nat (n + 32) else c.

(** [s.lower()] on ASCII text. *)
Fixpoint lower (s : string) : string :=
  match s with
  | String c s' => String (lower_ascii c) (lower s')
  | EmptyString => EmptyString
  end.

(** Lines 650-658: the join key into the recommendation table. *)
Definition acne_class_for_csv (acne_class_raw : string) : string :=
  let acne_class_for_csv := lower acne_class_raw in
  if String.eqb acne_class_for_csv "blackheads" then "blackhead"
  else if String.eqb acne_class_for_csv "whiteheads" then "whitehead"
  else if String.eqb acne_class_for_csv "papules" then "papule"
  else if String.eqb acne_class_for_csv "pustules" then "pustule"
  else if String.eqb acne_class_for_csv "cystic" then "cystic"
  else if String.eqb acne_class_for_csv "lv0" then "lv0"
  else acne_class_for_csv.

(** The plural forms that the lookup of lines 653-656 rewrites. *)
Definition plural_forms : list string :=
  ["blackheads"; "whiteheads"; "papules"; "pustules"].

(** [m], at position [j], is the first maximum of [v]: no score exceeds it
    and every score before position [j] is strictly smaller. *)
Definition first_maximum (v : list score) (j : nat) (m : score) : Prop :=
  v !! j = Some m ∧
  (∀ k y, v !! k = Some y → (y <= m)%Q) ∧
  (∀ k y, (k < j)%nat → v !! k = Some y → (y < m)%Q).

Record Detection := {
  acne_index : nat;
  acne_class_raw : string;
  acne_confidence : score;
  join_key : string
}.

(** Lines 646-658. *)
Definition classify (acne_prediction : list (list score))
    (class_names : list string) : result Detection :=
  acne_index ← np_argmax acne_prediction;
  label ← getitem class_names acne_index;
  let acne_class_raw := strip label in
  row ← getitem acne_prediction 0;
  acne_confidence ← getitem row acne_index;
  mret {| acne_index := acne_index;
          acne_class_raw := acne_class_raw;
          acne_confidence := acne_confidence;
          join_key := acne_class_for_csv acne_class_raw |}.

End Inference.

(** ** Progress journal *)

Module Journal.

(** One element of the list stored in [journal_metadata.json]. *)
Record JournalEntry := {
  date : string;
  image_path : string;
  note : string
}.

#[global] Instance JournalEntry_eq_dec : EqDecision JournalEntry.
Proof. solve_decision. Defined.

(** What a regular file holds: raw bytes (an uploaded image) or the JSON
    text of a list of entries, identified with that list ([json.dump]
    followed by [json.load] is the identity on lists of such records). *)
Inductive content :=
| Bytes (data : list Byte.byte)
| Json (entries : list JournalEntry).

(** The elements that the bodies of the two journal buttons render with
    [st.success], [st.error], [st.warning] and [st.info], and the box in
    which Streamlit displays an exception that leaves the script. *)
Inductive Element :=
| ProgressSaved                          (* line 865 *)
| SaveFailed (e : exn)                   (* line 868 *)
| UploadFirst                            (* line 870 *)
| ImageDeleted (image_path : string)     (* line 901 *)
| EntryDeleted                           (* line 902 *)
| UncaughtException (e : exn).

(** The state the journal code reads and writes: the module-level list
    [journal_entries], the regular files by path, the paths on which
    writing a file and [os.remove] fail, and the elements rendered so far,
    oldest first. A write to a denied path fails in one of two ways:
    [open(..., 'w')] itself is refused and the file stays as it is, or,
    for the paths of [truncating], the open succeeds, which creates or
    empties the file, and the failure comes with the write (a full
    disk). *)
Record World := {
  journal_entries : list JournalEntry;
  files : gmap string content;
  denied : gset string;
  truncating : gset string;
  shown : list Element
}.

(** A piece of script: the state it leaves is kept also when it raises. *)
Definition Script (A : Type) : Type := World → World * result A.

#[global] Instance Script_ret : MRet Script := λ A a w, (w, Ok a).
#[global] Instance Script_bind : MBind Script := λ A B f m w,
  match m w with
  | (w', Ok a) => f a w'
  | (w', Raise e) => (w', Raise e)
  end.

Definition raise {A} (e : exn) : Script A := λ w, (w, Raise e).

(** [try: body except Exception as e: handler(e)]. *)
Definition try_except (body : Script ()) (handler : exn → Script ())
  : Script () := λ w,
  match body w with
  | (w', Raise e) => if is_Exception e then handler e w' else (w', Raise e)
  | done => done
  end.

Definition st_show (el : Element) : Script () := λ w,
  ({| journal_entries := journal_entries w; files := files w;
      denied := denied w; truncating := truncating w;
      shown := shown w ++ [el] |}, Ok ()).

Definition st_experimental_rerun : Script () := raise RerunException.

Definition get_journal_entries : Script (list JournalEntry) := λ w,
  (w, Ok (journal_entries w)).

Definition set_journal_entries (l : list JournalEntry) : Script () := λ w,
  ({| journal_entries := l; files := files w;
      denied := denied w; truncating := truncating w;
      shown := shown w |}, Ok ()).

(** [with open(path, 'w' or 'wb') as f: f.write(c)]. Opening for writing
    empties the file before anything is written, so a write that fails
    after the open leaves an empty file behind; a refused open leaves the
    file as it was. Either way the [OSError] is raised. Where [path] is
    not denied the whole content is written. *)
Definition open_write (path : string) (c : content) : Script () := λ w,
  if decide (path ∈ denied w) then
    if decide (path ∈ truncating w)
    then ({| journal_entries := journal_entries w;
             files := <[path := Bytes []]> (files w);
             denied := denied w; truncating := truncating w;
             shown := shown w |}, Raise OSError)
    else (w, Raise OSError)
  else ({| journal_entries := journal_entries w;
           files := <[path := c]> (files w);
           denied := denied w; truncating := truncating w;
           shown := shown w |}, Ok ()).

(** [os.path.exists(path)]. *)
Definition os_path_exists (path : string) : Script bool := λ w,
  (w, Ok (bool_decide (is_Some (files w !! path)))).

(** [os.remove(path)]. *)
Definition os_remove (path : string) : Script () := λ w,
  match files w !! path with
  | None => (w, Raise OSError)
  | Some _ =>
      if decide (path ∈ denied w) then (w, Raise OSError)
      else ({| journal_entries := journal_entries w;
               files := delete path (files w);
               denied := denied w; truncating := truncating w;
               shown := shown w |}, Ok ())
  end.

(** [os.path.join(a, b)], with ["/"] as the separator. *)
Definition os_path_join (a b : string) : string :=
  match b with
  | String "/" _ => b
  | _ =>
      if String.eqb a "" || String.eqb (String.substring (String.length a - 1) 1 a) "/"
      then a +:+ b
      else a +:+ "/" +:+ b
  end.

Definition JOURNAL_DIR : string := "progress_journal_data".
Definition JOURNAL_METADATA_FILE : string :=
  os_path_join JOURNAL_DIR "journal_metadata.json".

(** Lines 33-39. Directories are not files of the model: the
    [os.makedirs] of line 35 creates no regular file. *)
Definition load_journal_entries : Script (list JournalEntry) := λ w,
  match files w !! JOURNAL_METADATA_FILE with
  | Some (Json entries) => (w, Ok entries)
  | Some (Bytes _) => (w, Raise ValueError)
  | None => (w, Ok [])
  end.

(** Lines 41-43. *)
Definition save_journal_entries (entries : list JournalEntry) : Script () :=
  open_write JOURNAL_METADATA_FILE (Json entries).

(** [s.split(sep)] for a one-character separator. *)
Fixpoint split (sep : ascii) (s : string) : list string :=
  match s with
  | EmptyString => [EmptyString]
  | String c s' =>
      if Ascii.eqb c sep then EmptyString :: split sep s'
      else match split sep s' with
           | p :: ps => String c p :: ps
           | [] => [String c EmptyString]
           end
  end.

(** Line 850: [name.split('.')[-1]]; the list is never empty. *)
Definition file_extension (name : string) : string :=
  default EmptyString (last (split "." name)).

(** Line 851. *)
Definition image_filename (timestamp name : string) : string :=
  "progress_image_" +:+ timestamp +:+ "." +:+ file_extension name.

(** Lines 852 and 886. *)
Definition full_image_path (image_path : string) : string :=
  os_path_join JOURNAL_DIR image_path.

(** Lines 858-862. [date_now] is the second reading of the clock. *)
Definition new_entry (date_now image_filename journal_note : string)
  : JournalEntry :=
  {| date := date_now;
     image_path := image_filename;
     note := if String.eqb journal_note "" then "No note." else journal_note |}.

(** An uploaded file: its name and its buffer. *)
Record UploadedFile := {
  name : string;
  getbuffer : list Byte.byte
}.

(** Lines 845-870, the body of the "Save Progress" button. [timestamp] is
    [datetime.now().strftime("%Y%m%d_%H%M%S")] at line 849 and [date_now]
    is [datetime.now().strftime("%Y-%m-%d %H:%M:%S")] at line 859. *)
Definition save_journal_button (uploaded_journal_file : option UploadedFile)
    (journal_note timestamp date_now : string) : Script () :=
  match uploaded_journal_file with
  | Some f =>
      try_except
        (let image_filename := image_filename timestamp (name f) in
         let image_path := full_image_path image_filename in
         open_write image_path (Bytes (getbuffer f));;
         let new_entry := new_entry date_now image_filename journal_note in
         l ← get_journal_entries;
         set_journal_entries (l ++ [new_entry]);;
         l ← get_journal_entries;
         save_journal_entries l;;
         st_show ProgressSaved;;
         st_experimental_rerun)
        (λ e, st_show (SaveFailed e))
  | None => st_show UploadFirst
  end.

(** [l.remove(x)]: drops the first element equal to [x]; [None] stands
    for the [ValueError] of a list without such an element. *)
Fixpoint list_remove (x : JournalEntry) (l : list JournalEntry)
  : option (list JournalEntry) :=
  match l with
  | [] => None
  | y :: l' =>
      if decide (y = x) then Some l' else (y ::.) <$> list_remove x l'
  end.

(** Lines 886 and 895-903, the body of the "Delete This Entry" button of
    [entry]. *)
Definition delete_journal_entry (entry : JournalEntry) : Script () :=
  let full_image_path := full_image_path (image_path entry) in
  l ← get_journal_entries;
  match list_remove entry l with
  | None => raise ValueError
  | Some l' => set_journal_entries l'
  end;;
  l ← get_journal_entries;
  save_journal_entries l;;
  present ← os_path_exists full_image_path;
  (if present : bool then
     os_remove full_image_path;;
     st_show (ImageDeleted (image_path entry))
   else mret ());;
  st_show EntryDeleted;;
  st_experimental_rerun.

(** Insertion into a list sorted by date, newest first: [x] goes in front
    of the first entry that is not newer than [x]. *)
Fixpoint insert_desc (x : JournalEntry) (l : list JournalEntry)
  : list JournalEntry :=
  match l with
  | [] => [x]
  | y :: l' =>
      if String.leb (date y) (date x) then x :: y :: l'
      else y :: insert_desc x l'
  end.

(** [x] may stand before [y] in a listing that runs from the newest date
    to the oldest. *)
Definition not_older (x y : JournalEntry) : Prop :=
  String.leb (date y) (date x) = true.

(** Line 877: [sorted(journal_entries, key=lambda x: x['date'],
    reverse=True)]. The sort is stable: entries with equal dates keep the
    order they have in [journal_entries]. *)
Definition sorted_entries (journal_entries : list JournalEntry)
  : list JournalEntry :=
  foldr insert_desc [] journal_entries.

(** What one press of a button does to the state: the button body runs; a
    [RerunException] starts the script again, which reloads the list
    (line 46); any other exception that leaves the script is displayed.
    What the script renders before it reaches the button, and after the
    reload, is not part of [interaction]; the history section, which
    decides whether a delete button is there to be pressed, is [history]
    below. *)
Definition interaction (body : Script ()) : Script () := λ w,
  match body w with
  | (w', Raise RerunException) =>
      (l ← load_journal_entries; set_journal_entries l) w'
  | done => done
  end.

Definition streamlit_run (body : Script ()) (w : World) : World :=
  match interaction body w with
  | (w', Raise e) => fst (st_show (UncaughtException e) w')
  | (w', Ok _) => w'
  end.

(** What the history section lists, top to bottom (lines 875-879). *)
Definition listed (w : World) : list JournalEntry :=
  sorted_entries (journal_entries w).

End Journal.

(** ** Loading the assets *)

Module Assets.

(** [f.readlines()] on the text of a file: the lines in order, each with
    its terminating line feed; a last line without line feed is kept. *)
Fixpoint readlines (text : string) : list string :=
  match text with
  | EmptyString => []
  | String c rest =>
      if Ascii.eqb c "010" then String c EmptyString :: readlines rest
      else match readlines rest with
           | [] => [String c EmptyString]
           | line :: lines => String c line :: lines
           end
  end.

(** Lines 50-103, the value that [load_ml_assets] returns; [None] stands
    for [(None, None)]. [model_file] is [None] when the model file does
    not exist and otherwise what [load_model] makes of it; [labels_file]
    is [None] when [labels.txt] does not exist and otherwise what reading
    it gives. Every exception is caught by the [except] of line 94. *)
Definition load_ml_assets {Model : Type} (model_file : option (result Model))
    (labels_file : option (result string)) : option (Model * list string) :=
  match model_file with
  | None => None
  | Some loaded =>
      match labels_file with
      | None => None
      | Some read =>
          match loaded with
          | Raise _ => None
          | Ok model =>
              match read with
              | Raise _ => None
              | Ok text =>
                  let class_names := Inference.strip <$> readlines text in
                  match class_names with
                  | [] => None
                  | _ => Some (model, class_names)
                  end
              end
          end
      end
  end.

(** A cell of a frame read by [pd.read_csv]: an empty cell ([NaN]) or the
    text of the value. *)
Inductive cell :=
| NaN
| Text (s : string).

#[global] Instance cell_eq_dec : EqDecision cell.
Proof. solve_decision. Defined.

(** A frame as pandas holds it: its columns by name, all of one length. *)
Abbreviation Frame := (gmap string (list cell)).

(** [.astype(str)] on one cell. *)
Definition astype_str (c : cell) : string :=
  match c with NaN => "nan" | Text s => s end.

(** [re.sub('s$', '', s)]: [$] matches at the end of the string and just
    before a line feed that ends the string, so the pattern has at most
    one match. *)
Fixpoint sub_trailing_s (s : string) : string :=
  match s with
  | EmptyString => EmptyString
  | String c rest =>
      if Ascii.eqb c "s" &&
         (String.eqb rest "" || String.eqb rest (String "010" ""))
      then rest
      else String c (sub_trailing_s rest)
  end.

(** Line 125, on one cell of the ['tingkat'] column. *)
Definition normalize_tingkat (c : cell) : string :=
  sub_trailing_s (Inference.lower (astype_str c)).

(** Line 126, on one cell of the ['jenis kulit'] column. *)
Definition normalize_jenis_kulit (c : cell) : string :=
  Inference.lower (astype_str c).

(** Line 120. *)
Definition required_cols : list string :=
  ["tingkat"; "jenis kulit"; "kandungan"; "rekomendasi"].

(** Lines 106-133, the value that [load_recommendation_data] returns.
    [csv_file] is [None] when [pengobatan.csv] does not exist and otherwise
    what [pd.read_csv] gives; a missing column raises [ValueError] at line
    123, which the [except] of line 129 turns into [None] like every other
    exception. *)
Definition load_recommendation_data (csv_file : option (result Frame))
  : option Frame :=
  match csv_file with
  | None => None
  | Some (Raise _) => None
  | Some (Ok df) =>
      if forallb (λ col, bool_decide (is_Some (df !! col))) required_cols
      then
        let df1 :=
          <["tingkat" := (λ c, Text (normalize_tingkat c)) <$>
                           default [] (df !! "tingkat")]> df in
        let df2 :=
          <["jenis kulit" := (λ c, Text (normalize_jenis_kulit c)) <$>
                               default [] (df1 !! "jenis kulit")]> df1 in
        Some df2
      else None
  end.

(** The rows of a frame with the four required columns, in index order,
    as the lookup and the search read them: the two key columns as text,
    the two others with [None] for an empty cell. *)
Fixpoint zip_rows (tingkat jenis_kulit kandungan rekomendasi : list cell)
  : list Recommendation.Row :=
  match tingkat, jenis_kulit, kandungan, rekomendasi with
  | t :: ts, j :: js, k :: ks, r :: rs =>
      {| Recommendation.tingkat := astype_str t;
         Recommendation.jenis_kulit := astype_str j;
         Recommendation.kandungan :=
           match k with NaN => None | Text s => Some s end;
         Recommendation.rekomendasi :=
           match r with NaN => None | Text s => Some s end |}
      :: zip_rows ts js ks rs
  | _, _, _, _ => []
  end.

Definition rows_of (df : Frame) : list Recommendation.Row :=
  zip_rows (default [] (df !! "tingkat")) (default [] (df !! "jenis kulit"))
           (default [] (df !! "kandungan")) (default [] (df !! "rekomendasi")).

End Assets.

(** ** What the result page shows about the detected class *)

Module Display.

(** The texts of the "Learn More" expander, lines 769-822. *)
Inductive Topic :=
| AboutBlackhead | AboutWhitehead | AboutPapule | AboutPustule
| AboutCystic | AboutLv0 | MoreSoon.

(** Lines 769-822: the text is chosen on the lower-cased raw label. *)
Definition learn_more (acne_class_raw : string) : Topic :=
  let l := Inference.lower acne_class_raw in
  if String.eqb l "blackhead" then AboutBlackhead
  else if String.eqb l "whitehead" then AboutWhitehead
  else if String.eqb l "papule" then AboutPapule
  else if String.eqb l "pustule" then AboutPustule
  else if String.eqb l "cystic" then AboutCystic
  else if String.eqb l "lv0" then AboutLv0
  else MoreSoon.

(** Line 673: the page congratulates instead of describing acne types. *)
Definition skin_is_clear (acne_class_raw : string) : bool :=
  String.eqb (Inference.lower acne_class_raw) "lv0".

End Display.

(** ** Recommendation search of the sidebar *)

Module Search.

(** [Series.unique().tolist()]: the values in order of first appearance. *)
Fixpoint unique (l : list string) : list string :=
  match l with
  | [] => []
  | x :: l' => x :: filter (λ y, y ≠ x) (unique l')
  end.

(** Lines 452 and 453: the options of the two multiselects. *)
Definition all_tingkat (df : Recommendation.DataFrame) : list string :=
  unique (Recommendation.tingkat <$> df).
Definition all_jenis_kulit (df : Recommendation.DataFrame) : list string :=
  unique (Recommendation.jenis_kulit <$> df).

(** What the search button renders. *)
Inductive Outcome :=
| SelectCriterion                                   (* line 471 *)
| Found (rows : list Recommendation.Row)            (* lines 487-504 *)
| NoMatch                                           (* line 506 *)
| PatternError.                                     (* uncaught [re.error] *)

Section search.

(** [Series.str.contains(pat, case=False)] treats [pat] as a regular
    expression: it is compiled once, which fails on a malformed pattern,
    and the compiled pattern is searched in each text. *)
Variable re_compile_ignorecase : string → option (string → bool).

(** Lines 476 and 479: [column.isin(selected)] when something is
    selected, no restriction otherwise. *)
Definition isin_or_all (selected : list string) (value : string) : bool :=
  match selected with
  | [] => true
  | _ => bool_decide (value ∈ selected)
  end.

(** Line 483: [.astype(str)] on a cell of the ['kandungan'] column. *)
Definition kandungan_text (r : Recommendation.Row) : string :=
  match Recommendation.kandungan r with None => "nan" | Some s => s end.

(** Lines 469-506, the body of the search button on a loaded table. *)
Definition perform_search (df : Recommendation.DataFrame)
    (selected_tingkat_search selected_jenis_kulit_search : list string)
    (search_kandungan_text : string) : Outcome :=
  match selected_tingkat_search, selected_jenis_kulit_search,
        String.eqb search_kandungan_text "" with
  | [], [], true => SelectCriterion
  | _, _, no_text =>
      let by_tingkat :=
        filter (λ r, isin_or_all selected_tingkat_search
                       (Recommendation.tingkat r) = true) df in
      let by_jenis_kulit :=
        filter (λ r, isin_or_all selected_jenis_kulit_search
                       (Recommendation.jenis_kulit r) = true) by_tingkat in
      let by_kandungan :=
        if no_text then Some by_jenis_kulit
        else match re_compile_ignorecase search_kandungan_text with
             | None => None
             | Some found_in =>
                 Some (filter (λ r, found_in (kandungan_text r) = true)
                         by_jenis_kulit)
             end in
      match by_kandungan with
      | None => PatternError
      | Some [] => NoMatch
      | Some filtered_recom => Found filtered_recom
      end
  end.

End search.

End Search.

Import Recommendation Inference Journal.
Import Assets Display Search.

(** ** Scenarios of the specification *)

(** The table of the specification's scenario: a generic and an oily row
    for papules. *)
Definition papule_rows : Recommendation.DataFrame :=
  [ {| tingkat := "papule"; jenis_kulit := "semua";
       kandungan := Some "benzoyl peroxide";
       rekomendasi := Some "avoid touching" |};
    {| tingkat := "papule"; jenis_kulit := "oily";
       kandungan := Some "salicylic acid";
       rekomendasi := Some "oil-free moisturizer" |} ].

(** The scenario of the specification: six labels, maximum at index 2. *)
Definition scenario_labels : list string :=
  ["blackheads"; "whiteheads"; "papules"; "pustules"; "cystic"; "lv0"].
Definition scenario_scores : list score :=
  [1#10; 5#100; 6#10; 1#10; 5#100; 1#10]%Q.

(** A journal scenario: one stored entry with its photo, and an upload. *)
Definition first_entry : JournalEntry :=
  {| date := "2025-06-01 09:30:00";
     image_path := "progress_image_20250601_093000.jpg";
     note := "day 1" |}.

Definition photo : UploadedFile :=
  {| name := "cheek.jpg"; getbuffer := [Byte.xff; Byte.xd8; Byte.xff] |}.

Definition empty_journal : World :=
  {| journal_entries := []; files := ∅; denied := ∅; truncating := ∅;
     shown := [] |}.

Definition journal_of_one : World :=
  {| journal_entries := [first_entry];
     files := <[JOURNAL_METADATA_FILE := Json [first_entry]]>
              (<[full_image_path (image_path first_entry) := Bytes [Byte.xff]]> ∅);
     denied := ∅; truncating := ∅;
     shown := [] |}.

(** The same journal when the operating system refuses to remove the
    photo of the stored entry. *)
Definition journal_of_one_locked : World :=
  {| journal_entries := journal_entries journal_of_one;
     files := files journal_of_one;
     denied := {[ full_image_path (image_path first_entry) ]};
     truncating := ∅;
     shown := [] |}.

(** ** Notions used in the further properties *)

(** Line 46, run at the start of every script run. *)
Definition script_start : Script () :=
  l ← load_journal_entries; set_journal_entries l.

(** The list in memory is the list that the metadata file holds (the
    empty list when there is no file). *)
Definition in_sync (w : World) : Prop :=
  snd (load_journal_entries w) = Ok (journal_entries w).

(** The character [c] occurs in [s]. *)
Definition has_char (c : ascii) (s : string) : Prop :=
  ∃ a b, s = a +:+ String c b.

(** [s] ends with [suffix]. *)
Definition ends_with (suffix s : string) : Prop := ∃ p, s = p +:+ suffix.

(** The sum of a score vector. *)
Definition total (v : list score) : Q := foldr Qplus 0%Q v.

(** Further scenarios: a second entry that shares the photo of the first,
    journals on which the operating system refuses a write, a label file
    and a recommendation file. *)
Definition second_entry : JournalEntry :=
  {| date := "2025-06-01 09:30:00";
     image_path := "progress_image_20250601_093000.jpg";
     note := "left cheek" |}.

Definition journal_shared_photo : World :=
  {| journal_entries := [first_entry; second_entry];
     files := <[JOURNAL_METADATA_FILE := Json [first_entry; second_entry]]>
              (<[full_image_path (image_path first_entry) := Bytes [Byte.xff]]> ∅);
     denied := ∅; truncating := ∅;
     shown := [] |}.

Definition journal_photo_refused : World :=
  {| journal_entries := journal_entries journal_of_one;
     files := files journal_of_one;
     denied :=
       {[ full_image_path (image_filename "20250602_101500" (name photo)) ]};
     truncating := ∅;
     shown := [] |}.

Definition journal_metadata_refused : World :=
  {| journal_entries := journal_entries journal_of_one;
     files := files journal_of_one;
     denied := {[ JOURNAL_METADATA_FILE ]}; truncating := ∅;
     shown := [] |}.



Definition labels_text : string :=
  "blackheads" +:+ String "010" ("whiteheads" +:+ String "010"
    ("  lv0 " +:+ String "010" "")).

Definition raw_frame : Frame :=
  <["tingkat" := [Text "Papules"; Text "PAPULES"; Text "Cystic"]]>
  (<["jenis kulit" := [Text "Semua"; Text "Oily"; NaN]]>
  (<["kandungan" := [Text "benzoyl peroxide"; Text "salicylic acid"; NaN]]>
  (<["rekomendasi" := [Text "avoid touching"; NaN; Text "see a doctor"]]>
     ∅))).

Definition loaded_frame : Frame :=
  default ∅ (load_recommendation_data (Some (Ok raw_frame))).

(** What lower-casing a character means, read off the two alphabets: a
    letter of [ascii_uppercase] becomes the letter of [ascii_lowercase] of
    the same rank, any other character stays. [lower] is compared with
    it. *)
Definition ascii_uppercase : string := "ABCDEFGHIJKLMNOPQRSTUVWXYZ".
Definition ascii_lowercase : string := "abcdefghijklmnopqrstuvwxyz".
Definition lowercase_of (c : ascii) : ascii :=
  match String.index 0 (String c "") ascii_uppercase with
  | Some rank => default c (String.get rank ascii_lowercase)
  | None => c
  end.

(** ** The history section of a script run *)

Module History.

Section history.

(** Whether PIL decodes the bytes of an image file. *)
Variable PIL_can_open : list Byte.byte → bool.

(** Whether [datetime.strptime(s, "%Y-%m-%d %H:%M:%S")] succeeds. *)
Variable strptime_parses : string → bool.

(** Line 888, [st.image(path)] on a path that exists: the file is read and
    decoded, and bytes that are no image raise PIL's
    [UnidentifiedImageError], an [OSError]. *)
Definition st_image (path : string) : Script () := λ w,
  match files w !! path with
  | Some (Bytes data) =>
      if PIL_can_open data then (w, Ok ()) else (w, Raise OSError)
  | Some (Json _) => (w, Raise OSError)
  | None => (w, Raise OSError)
  end.

(** Line 895, the key of the delete button of an entry. *)
Definition delete_key (entry : JournalEntry) : string :=
  "delete_journal_entry_" +:+ date entry.

(** The photo of [entry] does not stop the loop: there is no such file, or
    PIL decodes it. *)
Definition photo_renders (w : World) (entry : JournalEntry) : Prop :=
  match files w !! full_image_path (image_path entry) with
  | Some (Bytes data) => PIL_can_open data = true
  | Some (Json _) => False
  | None => True
  end.

(** Lines 879-904, the loop over the sorted entries. [pressed] is the key
    of the button that is down in this run, if any, and [keys] are the
    keys of the buttons created so far. The body of the pressed button
    runs where the loop creates that button. *)
Fixpoint history_loop (pressed : option string) (keys : list string)
    (entries : list JournalEntry) : Script () :=
  match entries with
  | [] => mret ()
  | entry :: rest =>
      (if strptime_parses (date entry) then mret () else raise ValueError);;
      let full_image_path := full_image_path (image_path entry) in
      present ← os_path_exists full_image_path;
      (if present : bool then st_image full_image_path else mret ());;
      (if bool_decide (delete_key entry ∈ keys)
       then raise DuplicateWidgetID else mret ());;
      (if bool_decide (pressed = Some (delete_key entry))
       then delete_journal_entry entry else mret ());;
      history_loop pressed (delete_key entry :: keys) rest
  end.

(** Lines 875-906. *)
Definition history (pressed : option string) : Script () :=
  l ← get_journal_entries;
  history_loop pressed [] (sorted_entries l).

(** The journal's part of a script run in which the delete button with key
    [pressed] is down: the list is loaded (line 46) and the history
    section runs. The sections of the script in between do not touch the
    journal. *)
Definition press_delete (pressed : string) : Script () :=
  script_start;; history (Some pressed).

End history.

End History.

Import History.

(** Scenarios for the history section: a photo that PIL decodes (a binary
    PPM of one red pixel), a decoder that knows this photo only, a date
    parser that accepts the strings of nineteen characters, and a journal
    that holds a file beside its own. *)
Definition pixel_photo : UploadedFile :=
  {| name := "cheek.png";
     getbuffer := [Byte.x50; Byte.x36; Byte.x0a; Byte.x31; Byte.x20;
                   Byte.x31; Byte.x0a; Byte.x32; Byte.x35; Byte.x35;
                   Byte.x0a; Byte.xff; Byte.x00; Byte.x00] |}.

Definition scenario_PIL_can_open (data : list Byte.byte) : bool :=
  bool_decide (Byte.to_nat <$> data = Byte.to_nat <$> getbuffer pixel_photo).

Definition scenario_strptime_parses (s : string) : bool :=
  bool_decide (String.length s = 19%nat).

(** The journal after two saves of the decodable photo within one second
    of the clock. *)
Definition journal_same_second : World :=
  streamlit_run
    (save_journal_button (Some pixel_photo) "again" "20250602_101500"
       "2025-06-02 10:15:00")
    (streamlit_run
       (save_journal_button (Some pixel_photo) "day 2" "20250602_101500"
          "2025-06-02 10:15:00") empty_journal).

(** The journal after a save of bytes that are no image. *)
Definition journal_undecodable : World :=
  streamlit_run
    (save_journal_button (Some photo) "day 2" "20250602_101500"
       "2025-06-02 10:15:00") empty_journal.

Definition journal_pixel_refused : World :=
  {| journal_entries := journal_entries journal_of_one;
     files := files journal_of_one;
     denied :=
       {[ full_image_path
            (image_filename "20250602_101500" (name pixel_photo)) ]};
     truncating := ∅;
     shown := [] |}.

Definition journal_with_notes : World :=
  {| journal_entries := journal_entries journal_of_one;
     files := <["progress_journal_data/notes.txt" := Bytes [Byte.x68; Byte.x69]]>
                (files journal_of_one);
     denied := ∅; truncating := ∅;
     shown := [] |}.

(** * Properties *)

(** ** The first element that a selection keeps *)

Section first_of_filter.
Context {A : Type} (P : A → Prop) `{!∀ x, Decision (P x)}.

Lemma filter_cons_split (l : list A) (r : A) (rest : list A) :
  filter P l = r :: rest →
  ∃ before after, l = before ++ r :: after ∧ P r ∧
                  (∀ x, x ∈ before → ¬ P x).
Proof.
  induction l as [|x l IH]; intros Hf; [discriminate|].
  rewrite filter_cons in Hf. destruct (decide (P x)) as [Hx|Hx].
  - injection Hf as -> _. exists [], l. split_and!; [done..|].
    intros y Hy. by apply not_elem_of_nil in Hy.
  - destruct (IH Hf) as (before & after & -> & Hr & Hb).
    exists (x :: before), after. split_and!; [done..|].
    intros y [->|Hy]%elem_of_cons; auto.
Qed.

Lemma filter_split_cons (before after : list A) (r : A) :
  P r → (∀ x, x ∈ before → ¬ P x) →
  ∃ rest, filter P (before ++ r :: after) = r :: rest.
Proof.
  intros Hr Hb. induction before as [|x before IH]; simpl.
  - rewrite filter_cons_True by done. eauto.
  - rewrite filter_cons_False by (apply Hb; left).
    apply IH. intros y Hy. apply Hb. by right.
Qed.

Lemma filter_nil_none (l : list A) :
  filter P l = [] ↔ ∀ x, x ∈ l → ¬ P x.
Proof.
  split.
  - intros Hf x Hx HP.
    assert (x ∈ filter P l) as Hin by (by apply list_elem_of_filter).
    rewrite Hf in Hin. by apply not_elem_of_nil in Hin.
  - intros Hn. induction l as [|x l IH]; [done|].
    rewrite filter_cons_False by (apply Hn; left).
    apply IH. intros y Hy. apply Hn. by right.
Qed.
End first_of_filter.

(** ** Recommendation lookup *)

Section resolver.
Implicit Types (df : DataFrame) (acne key skin_type : string) (r : Row).

Lemma by_skin_filtered df acne key :
  by_skin (filtered_by_acne df acne) key =
  filter (λ r, jenis_kulit r = key ∧ tingkat r = acne) df.
Proof. unfold by_skin, filtered_by_acne. apply list_filter_filter. Qed.

Lemma by_skin_head df acne key r rest :
  by_skin (filtered_by_acne df acne) key = r :: rest →
  first_match df acne key r.
Proof.
  rewrite by_skin_filtered. intros Hf.
  destruct (filter_cons_split _ _ _ _ Hf) as (b & a & -> & [Hk Ha] & Hb).
  exists b, a. split_and!; [done..|]. intros r' Hr' [? ?]. by eapply Hb.
Qed.

Lemma first_match_head df acne key r :
  first_match df acne key r →
  ∃ rest, by_skin (filtered_by_acne df acne) key = r :: rest.
Proof.
  intros (b & a & -> & Ha & Hk & Hb). rewrite by_skin_filtered.
  apply filter_split_cons; [done|]. intros r' Hr' [? ?]. by eapply Hb.
Qed.

Lemma by_skin_nil df acne key :
  by_skin (filtered_by_acne df acne) key = [] ↔ no_match df acne key.
Proof.
  rewrite by_skin_filtered, filter_nil_none. unfold no_match.
  split; intros H r Hr [? ?]; by eapply H.
Qed.

Lemma first_match_excludes_no_match df acne key r :
  first_match df acne key r → ¬ no_match df acne key.
Proof.
  intros (b & a & -> & Ha & Hk & _) Hn. apply (Hn r); [|done].
  apply elem_of_app. right. left.
Qed.

Lemma recom_row_for_Some df acne key r :
  recom_row_for df acne key = Some r ↔
  first_match df acne key r ∨
  (no_match df acne key ∧ first_match df acne "semua" r).
Proof.
  unfold recom_row_for.
  destruct (by_skin (filtered_by_acne df acne) key) as [|r0 rest0] eqn:Hs.
  - apply by_skin_nil in Hs.
    destruct (by_skin (filtered_by_acne df acne) "semua")
      as [|r1 rest1] eqn:Hg.
    + split; [done|].
      intros [H|[_ H]]; apply first_match_head in H as [rest H];
        [by apply by_skin_nil in Hs; rewrite Hs in H | congruence].
    + split.
      * intros [= <-]. right. split; [done|]. by eapply by_skin_head.
      * intros [H|[_ H]]; [by apply first_match_excludes_no_match in H|].
        apply first_match_head in H as [rest H]. congruence.
  - pose proof (by_skin_head _ _ _ _ _ Hs) as Hfm. split.
    + intros [= <-]. by left.
    + intros [H|[H _]]; [|by apply first_match_excludes_no_match in Hfm].
      apply first_match_head in H as [rest H]. congruence.
Qed.

Lemma recom_row_for_None df acne key :
  recom_row_for df acne key = None ↔
  no_match df acne key ∧ no_match df acne "semua".
Proof.
  unfold recom_row_for. rewrite <- !by_skin_nil.
  destruct (by_skin (filtered_by_acne df acne) key);
    destruct (by_skin (filtered_by_acne df acne) "semua");
    (split; [intros ?|intros [? ?]]; done).
Qed.

Lemma no_match_unknown_acne df acne key :
  acne ∉ (tingkat <$> df) → no_match df acne key.
Proof.
  intros Hn r Hr [Ha _]. apply Hn. rewrite <- Ha.
  by apply list_elem_of_fmap_2.
Qed.

(** C1. For every table, acne type and mapped skin-type key, the lookup
    returns a row exactly when that row is the first one of the table, in
    table order, with the acne type and the key, or when no row has the
    acne type and the key and the row is the first one with the acne type
    and the generic key "semua"; it returns nothing exactly when neither
    kind of row exists. In particular, as soon as some row has the acne
    type and the key, the row returned is the first such row, whatever
    "semua" rows the table holds. *)
Theorem recom_row_fallback_order df acne key :
  (∀ r, recom_row_for df acne key = Some r ↔
        first_match df acne key r ∨
        (no_match df acne key ∧ first_match df acne "semua" r)) ∧
  (recom_row_for df acne key = None ↔
        no_match df acne key ∧ no_match df acne "semua") ∧
  (∀ s, s ∈ df → tingkat s = acne → jenis_kulit s = key →
        ∃ r, recom_row_for df acne key = Some r ∧
             first_match df acne key r ∧ jenis_kulit r = key).
Proof.
  split_and!.
  - intros r. apply recom_row_for_Some.
  - apply recom_row_for_None.
  - intros s Hin Ha Hk.
    destruct (recom_row_for df acne key) as [r|] eqn:Hr.
    + exists r. split; [done|].
      apply recom_row_for_Some in Hr as [Hfm|[Hno _]].
      * split; [done|]. by destruct Hfm as (_ & _ & _ & _ & ? & _).
      * by destruct (Hno s Hin).
    + apply recom_row_for_None in Hr as [Hno _]. by destruct (Hno s Hin).
Qed.

(** C8. When the acne type does not occur in the table's acne-type
    column, the lookup returns nothing, for every skin-type selection;
    the lookup is a total function, so no input makes it fail. *)
Theorem unknown_acne_type_not_found df acne skin_type :
  acne ∉ (tingkat <$> df) →
  recom_row df acne skin_type = None.
Proof.
  intros Hn. unfold recom_row. apply recom_row_for_None.
  split; by apply no_match_unknown_acne.
Qed.

Lemma map_lookup_cases skin_type :
  SKIN_TYPE_MAP_TO_CSV !! skin_type =
    if decide (skin_type = "Berminyak") then Some "oily"
    else if decide (skin_type ∈ skin_type_options) then Some "semua"
    else None.
Proof.
  unfold SKIN_TYPE_MAP_TO_CSV, skin_type_options.
  repeat (rewrite lookup_insert; case_decide; subst; [by vm_compute|]).
  rewrite lookup_empty.
  rewrite decide_False by congruence.
  rewrite decide_False; [done|]. intros Hin.
  repeat (apply elem_of_cons in Hin as [->|Hin]; [congruence|]).
  by apply elem_of_nil in Hin.
Qed.

(** C7. On the selections that the user interface offers, the map sends
    "Berminyak" to "oily" and every other selection to "semua"; so
    "Berminyak" is the only selection with the key "oily". *)
Theorem skin_type_mapping skin_type :
  skin_type ∈ skin_type_options →
  SKIN_TYPE_MAP_TO_CSV !! skin_type =
    Some (if decide (skin_type = "Berminyak") then "oily" else "semua") ∧
  user_skin_type_csv skin_type =
    (if decide (skin_type = "Berminyak") then "oily" else "semua") ∧
  (user_skin_type_csv skin_type = "oily" ↔ skin_type = "Berminyak").
Proof.
  intros Hin. unfold user_skin_type_csv. rewrite map_lookup_cases.
  case_decide; [done|]. rewrite decide_True by done. simpl.
  split_and!; [done..|]. split; [discriminate|done].
Qed.

(** C10. A skin-type value that is not a key of the map gets the default
    key "semua", so the lookup proceeds with the generic key: the mapping
    is defined on every string. *)
Theorem skin_type_default skin_type :
  SKIN_TYPE_MAP_TO_CSV !! skin_type = None →
  user_skin_type_csv skin_type = "semua" ∧
  ∀ df acne, recom_row df acne skin_type = recom_row_for df acne "semua".
Proof.
  intros Hn. unfold recom_row, user_skin_type_csv. by rewrite Hn.
Qed.

End resolver.

Example recom_row_papule_oily :
  recom_row papule_rows "papule" "Berminyak" = papule_rows !! 1%nat.
Proof. reflexivity. Qed.

Example recom_row_papule_dry :
  recom_row papule_rows "papule" "Kering" = papule_rows !! 0%nat.
Proof. reflexivity. Qed.

Lemma unknown_acne_type_not_found_witness :
  ("cystic" ∉ (tingkat <$> papule_rows)) ∧
  recom_row papule_rows "cystic" "Berminyak" = None.
Proof.
  assert ("cystic" ∉ (tingkat <$> papule_rows)) as Hn.
  { apply (bool_decide_unpack _). vm_compute. exact I. }
  split; [exact Hn|].
  exact (unknown_acne_type_not_found papule_rows "cystic" "Berminyak" Hn).
Defined.

Lemma skin_type_mapping_witness :
  "Kering" ∈ skin_type_options ∧
  SKIN_TYPE_MAP_TO_CSV !! "Kering" = Some "semua" ∧
  user_skin_type_csv "Kering" = "semua" ∧
  (user_skin_type_csv "Kering" = "oily" ↔ "Kering" = "Berminyak").
Proof.
  assert ("Kering" ∈ skin_type_options) as Hin.
  { apply (bool_decide_unpack _). vm_compute. exact I. }
  split; [exact Hin|]. exact (skin_type_mapping "Kering" Hin).
Defined.

Lemma skin_type_default_witness :
  SKIN_TYPE_MAP_TO_CSV !! "Oily" = None ∧
  user_skin_type_csv "Oily" = "semua" ∧
  ∀ df acne, recom_row df acne "Oily" = recom_row_for df acne "semua".
Proof.
  assert (SKIN_TYPE_MAP_TO_CSV !! "Oily" = None) as Hn by (vm_compute; reflexivity).
  split; [exact Hn|]. exact (skin_type_default "Oily" Hn).
Defined.

(** ** Classification *)

Section classification.
Implicit Types (v ip pre : list score) (class_names : list string).

Lemma argmax_scan_first_maximum ip pre (mp : score) (max_ind : nat) :
  first_maximum pre max_ind mp →
  ∃ m, first_maximum (pre ++ ip) (argmax_scan mp max_ind (length pre) ip) m.
Proof.
  revert pre mp max_ind.
  induction ip as [|x ip IH]; intros pre mp max_ind (Hat & Hle & Hlt); simpl.
  - exists mp. by rewrite app_nil_r.
  - assert (length (pre ++ [x]) = S (length pre)) as Hlen
      by (rewrite length_app; simpl; lia).
    rewrite (cons_middle x pre ip), app_assoc, <- Hlen.
    destruct (Qle_bool x mp) eqn:Hcmp; apply IH.
    + apply Qle_bool_iff in Hcmp. split_and!.
      * by apply lookup_app_l_Some.
      * intros k y [Hk|[_ Hk]]%lookup_app_Some; [by eapply Hle|].
        apply list_lookup_singleton_Some in Hk as [_ <-]. done.
      * intros k y Hlt' Hk. apply lookup_app_Some in Hk as [Hk|[Hge _]].
        -- by eapply Hlt.
        -- apply lookup_lt_Some in Hat. lia.
    + assert (mp < x)%Q as Hgt.
      { apply Qnot_le_lt. intros Hc. apply Qle_bool_iff in Hc. congruence. }
      split_and!.
      * rewrite lookup_app_r by done. by rewrite Nat.sub_diag.
      * intros k y [Hk|[_ Hk]]%lookup_app_Some.
        -- apply Qlt_le_weak. eapply Qle_lt_trans; [by eapply Hle|done].
        -- apply list_lookup_singleton_Some in Hk as [_ <-]. apply Qle_refl.
      * intros k y Hlt' Hk.
        apply lookup_app_Some in Hk as [Hk|[Hge _]]; [|lia].
        eapply Qle_lt_trans; [by eapply Hle|done].
Qed.

Lemma np_argmax_row v :
  np_argmax [v] =
    match v with
    | [] => Raise ValueError
    | x :: ip => Ok (argmax_scan x 0 1 ip)
    end.
Proof. unfold np_argmax. simpl. by rewrite app_nil_r. Qed.

Lemma np_argmax_first_maximum v (i : nat) :
  np_argmax [v] = Ok i → ∃ m, first_maximum v i m.
Proof.
  rewrite np_argmax_row. destruct v as [|x ip]; [done|]. intros [= <-].
  apply (argmax_scan_first_maximum ip [x] x 0).
  split_and!; [done| |intros; lia].
  intros k y Hk. apply list_lookup_singleton_Some in Hk as [_ <-].
  apply Qle_refl.
Qed.

Lemma np_argmax_nonempty v : v ≠ [] → ∃ i, np_argmax [v] = Ok i.
Proof. rewrite np_argmax_row. destruct v; [done|eauto]. Qed.

Lemma classify_unfold v class_names (i : nat) (m : score) :
  np_argmax [v] = Ok i → v !! i = Some m →
  classify [v] class_names =
    match class_names !! i with
    | Some label =>
        Ok {| acne_index := i; acne_class_raw := strip label;
              acne_confidence := m;
              join_key := acne_class_for_csv (strip label) |}
    | None => Raise IndexError
    end.
Proof.
  intros Hi Hm. unfold classify. rewrite Hi. simpl.
  unfold getitem. simpl. rewrite Hm.
  by destruct (class_names !! i).
Qed.

(** C2. For the one-row prediction of an image, with a non-empty score
    vector of no more components than there are labels, classification
    returns a detection whose index holds
    a score that no other score exceeds, every score at a smaller index
    being strictly smaller; hence among tied maximal entries the smallest
    index is selected. The confidence is the score at the selected
    index. *)
Theorem classify_selects_first_maximum v class_names :
  v ≠ [] → (length v ≤ length class_names)%nat →
  ∃ d, classify [v] class_names = Ok d ∧
       v !! acne_index d = Some (acne_confidence d) ∧
       (∀ k y, v !! k = Some y → (y <= acne_confidence d)%Q) ∧
       (∀ k y, (k < acne_index d)%nat → v !! k = Some y →
               (y < acne_confidence d)%Q) ∧
       (∀ i a, v !! i = Some a →
               (∀ k y, v !! k = Some y → (y <= a)%Q) →
               (acne_index d ≤ i)%nat).
Proof.
  intros Hne Hlen.
  destruct (np_argmax_nonempty v Hne) as [i Hi].
  destruct (np_argmax_first_maximum v i Hi) as (m & Hat & Hle & Hlt).
  rewrite (classify_unfold v class_names i m Hi Hat).
  destruct (class_names !! i) as [label|] eqn:Hl.
  - eexists. split; [done|]. simpl. split_and!; [done..|].
    intros j a Hj Hmax. destruct (decide (i ≤ j)%nat); [done|].
    assert (a < m)%Q by (apply (Hlt j); [lia|done]).
    assert (m <= a)%Q by (by eapply Hmax).
    exfalso. by apply (Qlt_not_le a m).
  - apply lookup_ge_None in Hl. apply lookup_lt_Some in Hat. lia.
Qed.

(** C3, as amended. Classification compares no lengths. On an empty
    prediction the arg-max raises [ValueError]; otherwise the arg-max index
    lies within the prediction, and classification raises [IndexError]
    exactly when that index is not a position of the label list; in every
    other case it returns the detection made of that index, of the label
    at that index (stripped), of the score at that index and of the join
    key of that label. *)
Theorem classify_error_condition v class_names :
  match np_argmax [v] with
  | Raise e =>
      v = [] ∧ e = ValueError ∧ classify [v] class_names = Raise ValueError
  | Ok i =>
      (i < length v)%nat ∧
      match class_names !! i with
      | Some label =>
          (i < length class_names)%nat ∧
          ∃ m, v !! i = Some m ∧
               classify [v] class_names =
                 Ok {| acne_index := i;
                       acne_class_raw := strip label;
                       acne_confidence := m;
                       join_key := acne_class_for_csv (strip label) |}
      | None =>
          (length class_names ≤ i)%nat ∧
          classify [v] class_names = Raise IndexError
      end
  end.
Proof.
  destruct (np_argmax [v]) as [i|e] eqn:Hi.
  - destruct (np_argmax_first_maximum v i Hi) as (m & Hat & _).
    split; [by eapply lookup_lt_Some|].
    rewrite (classify_unfold v class_names i m Hi Hat).
    destruct (class_names !! i) as [label|] eqn:Hl.
    + split; [by eapply lookup_lt_Some|]. by exists m.
    + split; [by apply lookup_ge_None|done].
  - rewrite np_argmax_row in Hi. destruct v; [|done].
    injection Hi as <-. unfold classify. by rewrite np_argmax_row.
Qed.

Lemma lower_ascii_idemp (c : ascii) :
  lower_ascii (lower_ascii c) = lower_ascii c.
Proof. destruct c as [[] [] [] [] [] [] [] []]; reflexivity. Qed.

Lemma lower_idemp (s : string) : lower (lower s) = lower s.
Proof.
  induction s as [|c s IH]; simpl; [done|].
  by rewrite lower_ascii_idemp, IH.
Qed.

Lemma acne_class_for_csv_cases (x : string) :
  acne_class_for_csv x =
    if decide (lower x = "blackheads") then "blackhead"
    else if decide (lower x = "whiteheads") then "whitehead"
    else if decide (lower x = "papules") then "papule"
    else if decide (lower x = "pustules") then "pustule"
    else lower x.
Proof.
  unfold acne_class_for_csv.
  destruct (String.eqb_spec (lower x) "blackheads") as [->|?]; [done|].
  rewrite decide_False by done.
  destruct (String.eqb_spec (lower x) "whiteheads") as [->|?]; [done|].
  rewrite decide_False by done.
  destruct (String.eqb_spec (lower x) "papules") as [->|?]; [done|].
  rewrite decide_False by done.
  destruct (String.eqb_spec (lower x) "pustules") as [->|?]; [done|].
  rewrite decide_False by done.
  destruct (String.eqb_spec (lower x) "cystic") as [->|?]; [done|].
  by destruct (String.eqb_spec (lower x) "lv0") as [->|?].
Qed.

Lemma lower_ascii_lowercase_of (c : ascii) : lower_ascii c = lowercase_of c.
Proof. destruct c as [[] [] [] [] [] [] [] []]; reflexivity. Qed.

Lemma lower_length (s : string) : String.length (lower s) = String.length s.
Proof. induction s as [|c s IH]; simpl; [done|]. by rewrite IH. Qed.

Lemma lower_get (s : string) (i : nat) :
  String.get i (lower s) = lowercase_of <$> String.get i s.
Proof.
  revert i. induction s as [|c s IH]; intros i; simpl; [done|].
  destruct i as [|i]; simpl; [by rewrite lower_ascii_lowercase_of|apply IH].
Qed.

(** C6. Normalising a label twice gives what normalising it once gives.
    Normalisation lower-cases the label, that is, it keeps the length and
    replaces each of the letters A to Z by the letter a to z of the same
    rank, leaving every other character alone; it then rewrites the four
    plural forms "blackheads", "whiteheads", "papules" and "pustules" to
    their singular; a label whose lower-case form is none of the four is
    returned lower-cased and otherwise unchanged. *)
Theorem normalize_idempotent (x : string) :
  acne_class_for_csv (acne_class_for_csv x) = acne_class_for_csv x ∧
  acne_class_for_csv x =
    (if decide (lower x = "blackheads") then "blackhead"
     else if decide (lower x = "whiteheads") then "whitehead"
     else if decide (lower x = "papules") then "papule"
     else if decide (lower x = "pustules") then "pustule"
     else lower x) ∧
  (lower x ∉ plural_forms → acne_class_for_csv x = lower x) ∧
  String.length (lower x) = String.length x ∧
  (∀ i, String.get i (lower x) = lowercase_of <$> String.get i x) ∧
  (acne_class_for_csv <$> ["BlackHeads"; "WHITEHEADS"; "Papules"; "pustules";
                           "Cystic"; "LV0"; "Nodule 2"]) =
    ["blackhead"; "whitehead"; "papule"; "pustule"; "cystic"; "lv0";
     "nodule 2"].
Proof.
  split_and!;
    [|apply acne_class_for_csv_cases| |apply lower_length
     |apply lower_get|reflexivity].
  - rewrite (acne_class_for_csv_cases x).
    repeat (case_decide; [reflexivity|]).
    rewrite acne_class_for_csv_cases, lower_idemp.
    repeat (rewrite decide_False by done). done.
  - intros Hn. rewrite acne_class_for_csv_cases.
    repeat (rewrite decide_False;
            [|intros Heq; apply Hn; rewrite Heq; unfold plural_forms;
              rewrite !elem_of_cons; tauto]).
    done.
Qed.

End classification.

Example classify_scenario :
  classify [scenario_scores] scenario_labels =
    Ok {| acne_index := 2; acne_class_raw := "papules";
          acne_confidence := 6#10; join_key := "papule" |}.
Proof. reflexivity. Qed.

Example classify_tie :
  classify [[3#10; 35#100; 35#100]%Q] ["blackheads"; "whiteheads"; "papules"] =
    Ok {| acne_index := 1; acne_class_raw := "whiteheads";
          acne_confidence := 35#100; join_key := "whitehead" |}.
Proof. reflexivity. Qed.

Lemma classify_selects_first_maximum_witness :
  scenario_scores ≠ [] ∧
  (length scenario_scores ≤ length scenario_labels)%nat ∧
  ∃ d, classify [scenario_scores] scenario_labels = Ok d ∧
       scenario_scores !! acne_index d = Some (acne_confidence d) ∧
       (∀ k y, scenario_scores !! k = Some y → (y <= acne_confidence d)%Q) ∧
       (∀ k y, (k < acne_index d)%nat → scenario_scores !! k = Some y →
               (y < acne_confidence d)%Q) ∧
       (∀ i a, scenario_scores !! i = Some a →
               (∀ k y, scenario_scores !! k = Some y → (y <= a)%Q) →
               (acne_index d ≤ i)%nat).
Proof.
  assert (scenario_scores ≠ []) as Hne by discriminate.
  assert (length scenario_scores ≤ length scenario_labels)%nat as Hlen
    by (simpl; lia).
  split; [exact Hne|]. split; [exact Hlen|].
  exact (classify_selects_first_maximum scenario_scores scenario_labels
           Hne Hlen).
Defined.

(** C3, the claim as stated fails: a prediction with two components is
    classified against three labels without any error. *)
Lemma classify_length_mismatch_unsignalled :
  length [6#10; 4#10]%Q ≠ length ["blackheads"; "whiteheads"; "papules"] ∧
  classify [[6#10; 4#10]%Q] ["blackheads"; "whiteheads"; "papules"] =
    Ok {| acne_index := 0; acne_class_raw := "blackheads";
          acne_confidence := 6#10; join_key := "blackhead" |}.
Proof. split; [simpl; lia|reflexivity]. Qed.

(** ** Progress journal *)

Section journal.
Implicit Types (w : World) (l : list JournalEntry) (x e entry : JournalEntry).

Lemma ltb_not_leb (a b : string) :
  String.ltb a b = true → String.leb b a = false.
Proof.
  unfold String.ltb, String.leb. rewrite (String.compare_antisym a b).
  by destruct (String.compare b a).
Qed.

Lemma ltb_irrefl (a : string) : String.ltb a a = false.
Proof.
  unfold String.ltb. pose proof (String.compare_antisym a a) as Hsym.
  destruct (String.compare a a); simpl in Hsym; congruence.
Qed.

Lemma insert_desc_perm x l : insert_desc x l ≡ₚ x :: l.
Proof.
  induction l as [|y l IH]; simpl; [done|].
  destruct (String.leb (date y) (date x)); [done|].
  rewrite IH. apply Permutation_swap.
Qed.

Lemma sorted_entries_perm l : sorted_entries l ≡ₚ l.
Proof.
  induction l as [|x l IH]; simpl; [done|].
  by rewrite insert_desc_perm, IH.
Qed.

Lemma sorted_entries_newest_last l x :
  (∀ e, e ∈ l → String.ltb (date e) (date x) = true) →
  sorted_entries (l ++ [x]) = x :: sorted_entries l.
Proof.
  induction l as [|y l IH]; intros Hnew; simpl; [done|].
  rewrite IH by (intros e He; apply Hnew; by right). simpl.
  rewrite ltb_not_leb; [done|]. apply Hnew. left.
Qed.

Lemma ascii_compare_refl (a : ascii) : Ascii.compare a a = Eq.
Proof. unfold Ascii.compare. apply N.compare_refl. Qed.

Lemma ascii_compare_lt_trans (a b c : ascii) :
  Ascii.compare a b = Lt → Ascii.compare b c = Lt → Ascii.compare a c = Lt.
Proof.
  unfold Ascii.compare. rewrite !N.compare_lt_iff. apply N.lt_trans.
Qed.

Lemma compare_lt_trans (a b c : string) :
  String.compare a b = Lt → String.compare b c = Lt →
  String.compare a c = Lt.
Proof.
  revert b c. induction a as [|x a IH]; intros [|y b] [|z c]; simpl;
    try done.
  destruct (Ascii.compare x y) eqn:Hxy; [|clear IH|done];
    (destruct (Ascii.compare y z) eqn:Hyz; [| |done]).
  - apply Ascii.compare_eq_iff in Hxy as ->.
    apply Ascii.compare_eq_iff in Hyz as ->.
    rewrite ascii_compare_refl. apply IH.
  - apply Ascii.compare_eq_iff in Hxy as ->. by rewrite Hyz.
  - apply Ascii.compare_eq_iff in Hyz as <-. by rewrite Hxy.
  - by rewrite (ascii_compare_lt_trans x y z).
Qed.

Lemma leb_trans (a b c : string) :
  String.leb a b = true → String.leb b c = true → String.leb a c = true.
Proof.
  unfold String.leb.
  destruct (String.compare a b) eqn:Hab; [| |done];
    (destruct (String.compare b c) eqn:Hbc; [| |done]); intros _ _.
  - apply String.compare_eq_iff in Hab as ->. by rewrite Hbc.
  - apply String.compare_eq_iff in Hab as ->. by rewrite Hbc.
  - apply String.compare_eq_iff in Hbc as <-. by rewrite Hab.
  - by rewrite (compare_lt_trans a b c).
Qed.

Lemma insert_desc_sorted x l :
  StronglySorted not_older l → StronglySorted not_older (insert_desc x l).
Proof.
  induction 1 as [|y l Hl IH Hy]; simpl.
  - repeat constructor.
  - destruct (String.leb (date y) (date x)) eqn:Hcmp.
    + constructor; [by constructor|]. constructor; [done|].
      eapply Forall_impl; [exact Hy|]. intros z Hz.
      unfold not_older in *. by eapply leb_trans.
    + constructor; [done|]. rewrite insert_desc_perm.
      constructor; [|done]. unfold not_older.
      destruct (String.leb_total (date x) (date y)); [done|congruence].
Qed.

(** The listing runs from the newest date to the oldest. *)
Lemma sorted_entries_descending l :
  StronglySorted not_older (sorted_entries l).
Proof.
  induction l as [|x l IH]; simpl; [constructor|].
  by apply insert_desc_sorted.
Qed.

Lemma list_remove_split x l l' :
  list_remove x l = Some l' ↔
  ∃ l1 l2, l = l1 ++ x :: l2 ∧ (x ∉ l1) ∧ l' = (l1 ++ l2).
Proof.
  revert l'. induction l as [|y l IH]; intros l'; simpl.
  - split; [done|]. intros (l1 & l2 & Hl & _). by destruct l1.
  - destruct (decide (y = x)) as [->|Hne].
    + split.
      * intros [= <-]. exists [], l.
        split_and!; [done| |done]. apply not_elem_of_nil.
      * intros (l1 & l2 & Hl & Hnin & ->). destruct l1 as [|z l1].
        -- simpl in *. congruence.
        -- injection Hl as <- _. exfalso. apply Hnin. left.
    + split.
      * destruct (list_remove x l) as [r|]; [|done]. intros [= <-].
        destruct (proj1 (IH r) eq_refl) as (l1 & l2 & -> & Hnin & ->).
        exists (y :: l1), l2. split_and!; [done| |done].
        intros [?|?]%elem_of_cons; [congruence|done].
      * intros (l1 & l2 & Hl & Hnin & ->). destruct l1 as [|z l1].
        -- simpl in Hl. congruence.
        -- injection Hl as <- ->.
           rewrite (proj2 (IH (l1 ++ l2))); [done|].
           exists l1, l2. split_and!; [done| |done].
           intros ?. apply Hnin. by right.
Qed.

Lemma list_remove_elem x l : x ∈ l → ∃ l', list_remove x l = Some l'.
Proof.
  induction l as [|y l IH]; simpl; [by intros ?%elem_of_nil|].
  intros Hin. destruct (decide (y = x)); [eauto|].
  apply elem_of_cons in Hin as [->|Hin]; [done|].
  destruct (IH Hin) as [l' ->]. simpl. eauto.
Qed.

Lemma list_remove_last x l : x ∉ l → list_remove x (l ++ [x]) = Some l.
Proof.
  intros Hnin. apply list_remove_split. exists l, []. by rewrite app_nil_r.
Qed.

Lemma image_path_not_metadata (timestamp name : string) :
  full_image_path (image_filename timestamp name) ≠ JOURNAL_METADATA_FILE.
Proof. unfold full_image_path, image_filename. cbn. discriminate. Qed.

Lemma new_entry_note (date_now image_filename journal_note : string) :
  new_entry date_now image_filename journal_note =
    {| date := date_now; image_path := image_filename;
       note := if decide (journal_note = "") then "No note."
               else journal_note |}.
Proof.
  unfold new_entry.
  destruct (String.eqb_spec journal_note "") as [->|?]; [done|].
  by rewrite decide_False.
Qed.

Lemma save_journal_button_saved w (f : UploadedFile)
    (journal_note timestamp date_now : string) :
  let image_filename := image_filename timestamp (name f) in
  let entry := new_entry date_now image_filename journal_note in
  full_image_path image_filename ∉ denied w →
  JOURNAL_METADATA_FILE ∉ denied w →
  save_journal_button (Some f) journal_note timestamp date_now w =
    ({| journal_entries := journal_entries w ++ [entry];
        files := <[JOURNAL_METADATA_FILE := Json (journal_entries w ++ [entry])]>
                   (<[full_image_path image_filename := Bytes (getbuffer f)]>
                      (files w));
        denied := denied w; truncating := truncating w;
        shown := shown w ++ [ProgressSaved] |},
     Raise RerunException).
Proof.
  intros image_filename entry Himg Hmeta.
  unfold save_journal_button, try_except, mbind, Script_bind, open_write,
    save_journal_entries, open_write. simpl.
  rewrite decide_False by done. simpl.
  rewrite decide_False by done. done.
Qed.

Lemma reload_after_rerun w l :
  files w !! JOURNAL_METADATA_FILE = Some (Json l) →
  (l ← load_journal_entries; set_journal_entries l) w =
    ({| journal_entries := l; files := files w;
        denied := denied w; truncating := truncating w;
        shown := shown w |}, Ok ()).
Proof.
  intros Hl. unfold mbind, Script_bind, load_journal_entries. by rewrite Hl.
Qed.

Lemma streamlit_run_save w (f : UploadedFile)
    (journal_note timestamp date_now : string) :
  let image_filename := image_filename timestamp (name f) in
  let entry := new_entry date_now image_filename journal_note in
  full_image_path image_filename ∉ denied w →
  JOURNAL_METADATA_FILE ∉ denied w →
  streamlit_run
    (save_journal_button (Some f) journal_note timestamp date_now) w =
    {| journal_entries := journal_entries w ++ [entry];
       files := <[JOURNAL_METADATA_FILE := Json (journal_entries w ++ [entry])]>
                  (<[full_image_path image_filename := Bytes (getbuffer f)]>
                     (files w));
       denied := denied w; truncating := truncating w;
       shown := shown w ++ [ProgressSaved] |}.
Proof.
  intros image_filename entry Himg Hmeta.
  unfold streamlit_run, interaction.
  rewrite save_journal_button_saved by done.
  rewrite (reload_after_rerun _ (journal_entries w ++ [entry]))
    by (simpl; apply lookup_insert_eq).
  done.
Qed.

(** What the "Delete This Entry" button does, case by case: the list and
    the metadata file are updated first; the photo is then left alone when
    no such file exists, removed when the operating system allows it, and
    otherwise the [OSError] of [os.remove] leaves the button body. *)
Lemma delete_journal_entry_effect w entry (remaining : list JournalEntry) :
  let path := full_image_path (image_path entry) in
  let saved := <[JOURNAL_METADATA_FILE := Json remaining]> (files w) in
  list_remove entry (journal_entries w) = Some remaining →
  JOURNAL_METADATA_FILE ∉ denied w →
  delete_journal_entry entry w =
    match saved !! path with
    | None =>
        ({| journal_entries := remaining; files := saved;
            denied := denied w; truncating := truncating w;
            shown := shown w ++ [EntryDeleted] |}, Raise RerunException)
    | Some _ =>
        if decide (path ∈ denied w)
        then ({| journal_entries := remaining; files := saved;
                 denied := denied w; truncating := truncating w;
                 shown := shown w |}, Raise OSError)
        else ({| journal_entries := remaining;
                 files := delete path saved;
                 denied := denied w; truncating := truncating w;
                 shown := shown w ++
                   [ImageDeleted (image_path entry); EntryDeleted] |},
              Raise RerunException)
    end.
Proof.
  intros path saved Hrem Hmeta.
  unfold delete_journal_entry, mbind, Script_bind, get_journal_entries,
    save_journal_entries, open_write, os_path_exists, os_remove. simpl.
  rewrite Hrem. simpl. rewrite decide_False by done. simpl.
  fold path saved.
  destruct (saved !! path) as [c|] eqn:Hp.
  - rewrite bool_decide_true by eauto. simpl. rewrite Hp.
    destruct (decide (path ∈ denied w)); simpl; [done|].
    by rewrite <- app_assoc.
  - rewrite bool_decide_false by (by intros [? ?]). done.
Qed.

(** For an entry of the journal, whatever becomes of its photo: the first
    occurrence of the entry leaves the list and the metadata file holds
    the remaining entries. *)
Lemma delete_journal_entry_unlinks w entry :
  entry ∈ journal_entries w →
  JOURNAL_METADATA_FILE ∉ denied w →
  full_image_path (image_path entry) ≠ JOURNAL_METADATA_FILE →
  ∃ l1 l2,
    journal_entries w = l1 ++ entry :: l2 ∧ (entry ∉ l1) ∧
    journal_entries (fst (delete_journal_entry entry w)) = (l1 ++ l2) ∧
    files (fst (delete_journal_entry entry w)) !! JOURNAL_METADATA_FILE
      = Some (Json (l1 ++ l2)).
Proof.
  intros Hin Hmeta Hpath.
  destruct (list_remove_elem entry (journal_entries w) Hin) as [rem Hrem].
  destruct (proj1 (list_remove_split _ _ _) Hrem) as (l1 & l2 & Hl & Hn & ->).
  exists l1, l2. split_and!; [done..| |];
    rewrite (delete_journal_entry_effect w entry (l1 ++ l2)) by done;
    destruct (_ !! full_image_path (image_path entry));
    try case_decide; simpl; try done;
    rewrite ?lookup_delete_ne by done; apply lookup_insert_eq.
Qed.

(** C9. When the two files can be written, saving a photo appends one
    entry to the journal and to the metadata file, and the note of that
    entry is "No note." when the supplied note is empty and the supplied
    note itself otherwise. *)
Theorem journal_default_note w (f : UploadedFile)
    (journal_note timestamp date_now : string) :
  full_image_path (image_filename timestamp (name f)) ∉ denied w →
  JOURNAL_METADATA_FILE ∉ denied w →
  ∃ entry,
    journal_entries
      (streamlit_run
         (save_journal_button (Some f) journal_note timestamp date_now) w)
      = journal_entries w ++ [entry] ∧
    files
      (streamlit_run
         (save_journal_button (Some f) journal_note timestamp date_now) w)
      !! JOURNAL_METADATA_FILE = Some (Json (journal_entries w ++ [entry])) ∧
    note entry =
      (if decide (journal_note = "") then "No note." else journal_note) ∧
    (journal_note = "" → note entry = "No note.") ∧
    (journal_note ≠ "" → note entry = journal_note).
Proof.
  intros Himg Hmeta. rewrite streamlit_run_save by done. simpl.
  eexists. split; [done|]. split; [apply lookup_insert_eq|].
  rewrite new_entry_note. simpl.
  split_and!; [done|intros ->; done|intros ?; by rewrite decide_False].
Qed.

Lemma history_loop_pressed_first (PIL_can_open : list Byte.byte → bool)
    (strptime_parses : string → bool) w entry (rest : list JournalEntry)
    (data : list Byte.byte) :
  strptime_parses (date entry) = true →
  files w !! full_image_path (image_path entry) = Some (Bytes data) →
  PIL_can_open data = true →
  history_loop PIL_can_open strptime_parses (Some (delete_key entry)) []
    (entry :: rest) w =
  (delete_journal_entry entry;;
   history_loop PIL_can_open strptime_parses (Some (delete_key entry))
     [delete_key entry] rest) w.
Proof.
  intros Hdate Hfile Hpil. cbn [history_loop]. rewrite Hdate.
  unfold mbind at 1 2 3 4. unfold Script_bind at 1 2 3 4.
  unfold mret at 1, Script_ret at 1, os_path_exists, st_image.
  rewrite (bool_decide_true (is_Some _)) by (rewrite Hfile; eauto).
  rewrite Hfile, Hpil.
  rewrite (bool_decide_false (_ ∈ [])) by apply not_elem_of_nil.
  unfold mret at 1, Script_ret at 1.
  by rewrite bool_decide_true.
Qed.

(** C5, as amended. Take an upload that is a decodable image, a note, and
    a clock reading that parses as a date and is later than every stored
    date, on a journal where the operating system refuses neither the
    photo file nor the metadata file. Saving and listing then shows, in
    first position, an entry with the clock reading as date and with the
    note (or "No note." when the note is empty), followed by the former
    listing, and the photo is on disk under the entry's image path. The
    history section of the next run reaches the delete button of that
    entry, and pressing it brings the listing back to the former one,
    without the entry, and removes the photo from disk. *)
Theorem journal_round_trip (PIL_can_open : list Byte.byte → bool)
    (strptime_parses : string → bool) w (f : UploadedFile)
    (journal_note timestamp date_now : string) :
  full_image_path (image_filename timestamp (name f)) ∉ denied w →
  JOURNAL_METADATA_FILE ∉ denied w →
  (∀ e, e ∈ journal_entries w → String.ltb (date e) date_now = true) →
  strptime_parses date_now = true →
  PIL_can_open (getbuffer f) = true →
  ∃ entry,
    date entry = date_now ∧
    image_path entry = image_filename timestamp (name f) ∧
    note entry =
      (if decide (journal_note = "") then "No note." else journal_note) ∧
    listed
      (streamlit_run
         (save_journal_button (Some f) journal_note timestamp date_now) w)
      = entry :: listed w ∧
    files
      (streamlit_run
         (save_journal_button (Some f) journal_note timestamp date_now) w)
      !! full_image_path (image_path entry) = Some (Bytes (getbuffer f)) ∧
    listed
      (streamlit_run
         (press_delete PIL_can_open strptime_parses (delete_key entry))
         (streamlit_run
            (save_journal_button (Some f) journal_note timestamp date_now) w))
      = listed w ∧
    (entry ∉
       listed
         (streamlit_run
            (press_delete PIL_can_open strptime_parses (delete_key entry))
            (streamlit_run
               (save_journal_button (Some f) journal_note timestamp date_now)
               w))) ∧
    files
      (streamlit_run
         (press_delete PIL_can_open strptime_parses (delete_key entry))
         (streamlit_run
            (save_journal_button (Some f) journal_note timestamp date_now) w))
      !! full_image_path (image_path entry) = None ∧
    shown
      (streamlit_run
         (press_delete PIL_can_open strptime_parses (delete_key entry))
         (streamlit_run
            (save_journal_button (Some f) journal_note timestamp date_now) w))
      = shown w ++ [ProgressSaved; ImageDeleted (image_path entry);
                    EntryDeleted].
Proof.
  intros Himg Hmeta Hnew Hdate Hpil.
  set (fname := image_filename timestamp (name f)) in *.
  set (path := full_image_path fname) in *.
  exists (new_entry date_now fname journal_note).
  set (entry := new_entry date_now fname journal_note).
  assert (path ≠ JOURNAL_METADATA_FILE) as Hpath
    by apply image_path_not_metadata.
  assert (entry ∉ journal_entries w) as Hfresh.
  { intros Hin. apply Hnew in Hin. simpl in Hin.
    by rewrite ltb_irrefl in Hin. }
  assert (sorted_entries (journal_entries w ++ [entry])
          = entry :: sorted_entries (journal_entries w)) as Hsorted
    by (apply sorted_entries_newest_last; intros e He; by apply Hnew).
  rewrite streamlit_run_save by done. fold fname path entry.
  set (w1 := {| journal_entries := journal_entries w ++ [entry] |}).
  assert (files w1 !! path = Some (Bytes (getbuffer f))) as Hphoto.
  { unfold w1. cbn [files]. by rewrite lookup_insert_ne, lookup_insert_eq. }
  assert (press_delete PIL_can_open strptime_parses (delete_key entry) w1 =
          ({| journal_entries := journal_entries w;
              files := delete path
                         (<[JOURNAL_METADATA_FILE := Json (journal_entries w)]>
                            (files w1));
              denied := denied w; truncating := truncating w;
              shown := shown w1 ++ [ImageDeleted fname; EntryDeleted] |},
           Raise RerunException)) as Hpress.
  { unfold press_delete, script_start, history.
    unfold mbind at 1 2 3, Script_bind at 1 2 3.
    unfold load_journal_entries, get_journal_entries.
    change (files w1 !! JOURNAL_METADATA_FILE) with
      ((<[JOURNAL_METADATA_FILE := Json (journal_entries w ++ [entry])]>
          (<[path := Bytes (getbuffer f)]> (files w)))
         !! JOURNAL_METADATA_FILE).
    rewrite lookup_insert_eq. cbn [set_journal_entries journal_entries].
    rewrite Hsorted.
    rewrite (history_loop_pressed_first _ _ _ entry _ (getbuffer f))
      by done.
    unfold mbind, Script_bind.
    rewrite (delete_journal_entry_effect _ entry (journal_entries w))
      by (by try apply list_remove_last).
    change (full_image_path (image_path entry)) with path.
    cbn [files denied shown].
    rewrite lookup_insert_ne, Hphoto by done.
    change (denied w1) with (denied w).
    by rewrite decide_False. }
  assert (streamlit_run
            (press_delete PIL_can_open strptime_parses (delete_key entry)) w1 =
          {| journal_entries := journal_entries w;
             files := delete path
                        (<[JOURNAL_METADATA_FILE := Json (journal_entries w)]>
                           (files w1));
             denied := denied w; truncating := truncating w;
             shown := shown w1 ++ [ImageDeleted fname; EntryDeleted] |}) as ->.
  { unfold streamlit_run, interaction. rewrite Hpress.
    rewrite (reload_after_rerun _ (journal_entries w)); [done|].
    cbn [files]. rewrite lookup_delete_ne by done. apply lookup_insert_eq. }
  subst w1. unfold listed. cbn [journal_entries files shown].
  change (full_image_path (image_path entry)) with path.
  change (image_path entry) with fname.
  split_and!.
  - done.
  - done.
  - unfold entry. by rewrite new_entry_note.
  - done.
  - by rewrite lookup_insert_ne, lookup_insert_eq.
  - done.
  - by rewrite sorted_entries_perm.
  - apply lookup_delete_eq.
  - by rewrite <- app_assoc.
Qed.

End journal.

Lemma journal_default_note_witness :
  (full_image_path (image_filename "20250602_101500" (name photo))
     ∉ denied journal_of_one) ∧
  (JOURNAL_METADATA_FILE ∉ denied journal_of_one) ∧
  ∃ entry,
    journal_entries
      (streamlit_run
         (save_journal_button (Some photo) "" "20250602_101500"
            "2025-06-02 10:15:00") journal_of_one)
      = journal_entries journal_of_one ++ [entry] ∧
    files
      (streamlit_run
         (save_journal_button (Some photo) "" "20250602_101500"
            "2025-06-02 10:15:00") journal_of_one)
      !! JOURNAL_METADATA_FILE
      = Some (Json (journal_entries journal_of_one ++ [entry])) ∧
    note entry = (if decide ("" = "") then "No note." else "") ∧
    ("" = "" → note entry = "No note.") ∧
    ("" ≠ "" → note entry = "").
Proof.
  assert (∀ p : string, p ∉ denied journal_of_one) as Hfree
    by (intros p; apply not_elem_of_empty).
  split; [apply Hfree|]. split; [apply Hfree|].
  apply (journal_default_note journal_of_one photo "" "20250602_101500"
           "2025-06-02 10:15:00"); apply Hfree.
Defined.

Lemma journal_round_trip_witness :
  (full_image_path (image_filename "20250602_101500" (name pixel_photo))
     ∉ denied journal_of_one) ∧
  (JOURNAL_METADATA_FILE ∉ denied journal_of_one) ∧
  (∀ e, e ∈ journal_entries journal_of_one →
        String.ltb (date e) "2025-06-02 10:15:00" = true) ∧
  scenario_strptime_parses "2025-06-02 10:15:00" = true ∧
  scenario_PIL_can_open (getbuffer pixel_photo) = true ∧
  ∃ entry,
    date entry = "2025-06-02 10:15:00" ∧
    image_path entry = image_filename "20250602_101500" (name pixel_photo) ∧
    note entry = (if decide ("day 2" = "") then "No note." else "day 2") ∧
    listed
      (streamlit_run
         (save_journal_button (Some pixel_photo) "day 2" "20250602_101500"
            "2025-06-02 10:15:00") journal_of_one)
      = entry :: listed journal_of_one ∧
    files
      (streamlit_run
         (save_journal_button (Some pixel_photo) "day 2" "20250602_101500"
            "2025-06-02 10:15:00") journal_of_one)
      !! full_image_path (image_path entry)
      = Some (Bytes (getbuffer pixel_photo)) ∧
    listed
      (streamlit_run
         (press_delete scenario_PIL_can_open scenario_strptime_parses
            (delete_key entry))
         (streamlit_run
            (save_journal_button (Some pixel_photo) "day 2" "20250602_101500"
               "2025-06-02 10:15:00") journal_of_one))
      = listed journal_of_one ∧
    (entry ∉
       listed
         (streamlit_run
            (press_delete scenario_PIL_can_open scenario_strptime_parses
               (delete_key entry))
            (streamlit_run
               (save_journal_button (Some pixel_photo) "day 2"
                  "20250602_101500" "2025-06-02 10:15:00") journal_of_one))) ∧
    files
      (streamlit_run
         (press_delete scenario_PIL_can_open scenario_strptime_parses
            (delete_key entry))
         (streamlit_run
            (save_journal_button (Some pixel_photo) "day 2" "20250602_101500"
               "2025-06-02 10:15:00") journal_of_one))
      !! full_image_path (image_path entry) = None ∧
    shown
      (streamlit_run
         (press_delete scenario_PIL_can_open scenario_strptime_parses
            (delete_key entry))
         (streamlit_run
            (save_journal_button (Some pixel_photo) "day 2" "20250602_101500"
               "2025-06-02 10:15:00") journal_of_one))
      = shown journal_of_one ++
          [ProgressSaved; ImageDeleted (image_path entry); EntryDeleted].
Proof.
  assert (∀ p : string, p ∉ denied journal_of_one) as Hfree
    by (intros p; apply not_elem_of_empty).
  assert (∀ e, e ∈ journal_entries journal_of_one →
               String.ltb (date e) "2025-06-02 10:15:00" = true) as Hnew.
  { intros e He. simpl in He. apply list_elem_of_singleton in He as ->.
    reflexivity. }
  assert (scenario_strptime_parses "2025-06-02 10:15:00" = true) as Hdate
    by (vm_compute; reflexivity).
  assert (scenario_PIL_can_open (getbuffer pixel_photo) = true) as Hpil
    by (vm_compute; reflexivity).
  split; [apply Hfree|]. split; [apply Hfree|]. split; [exact Hnew|].
  split; [exact Hdate|]. split; [exact Hpil|].
  exact (journal_round_trip scenario_PIL_can_open scenario_strptime_parses
           journal_of_one pixel_photo "day 2" "20250602_101500"
           "2025-06-02 10:15:00" (Hfree _) (Hfree _) Hnew Hdate Hpil).
Defined.

(** C5, the claim as stated fails, once for each condition of the amended
    claim. (1) With the empty note the listed entry carries "No note.", so
    no listed entry has the note supplied. (2) With a clock reading equal
    to a stored date the new entry is listed second, not first. (3) Where
    the photo file is denied the listing after the save is the former
    one, and where the metadata file is denied it is the former one from
    the next run on. (4) After saving bytes that are no image, the
    history section raises at [st.image] before it creates the delete
    button of the new entry: pressing is without effect, the entry stays
    listed and its file stays on disk. (5) The same happens at [strptime]
    for an entry whose date does not parse. *)
Lemma round_trip_outside_conditions :
  (listed
     (streamlit_run
        (save_journal_button (Some pixel_photo) "" "20250602_101500"
           "2025-06-02 10:15:00") empty_journal)
     = [ {| date := "2025-06-02 10:15:00";
            image_path := "progress_image_20250602_101500.png";
            note := "No note." |} ] ∧
   ¬ ∃ e,
       e ∈ listed
             (streamlit_run
                (save_journal_button (Some pixel_photo) "" "20250602_101500"
                   "2025-06-02 10:15:00") empty_journal) ∧
       note e = "") ∧
  listed
    (streamlit_run
       (save_journal_button (Some pixel_photo) "again" "20250601_093000"
          "2025-06-01 09:30:00") journal_of_one)
    = [ first_entry;
        {| date := "2025-06-01 09:30:00";
           image_path := "progress_image_20250601_093000.png";
           note := "again" |} ] ∧
  listed
    (streamlit_run
       (save_journal_button (Some pixel_photo) "day 2" "20250602_101500"
          "2025-06-02 10:15:00")
       journal_pixel_refused)
    = [first_entry] ∧
  listed
    (fst (script_start
            (streamlit_run
               (save_journal_button (Some pixel_photo) "day 2"
                  "20250602_101500" "2025-06-02 10:15:00")
               journal_metadata_refused)))
    = [first_entry] ∧
  (listed
     (streamlit_run
        (press_delete scenario_PIL_can_open scenario_strptime_parses
           "delete_journal_entry_2025-06-02 10:15:00")
        (streamlit_run
           (save_journal_button (Some photo) "day 2" "20250602_101500"
              "2025-06-02 10:15:00") empty_journal))
     = [ {| date := "2025-06-02 10:15:00";
            image_path := "progress_image_20250602_101500.jpg";
            note := "day 2" |} ] ∧
   files
     (streamlit_run
        (press_delete scenario_PIL_can_open scenario_strptime_parses
           "delete_journal_entry_2025-06-02 10:15:00")
        (streamlit_run
           (save_journal_button (Some photo) "day 2" "20250602_101500"
              "2025-06-02 10:15:00") empty_journal))
     !! "progress_journal_data/progress_image_20250602_101500.jpg"
     = Some (Bytes (getbuffer photo)) ∧
   shown
     (streamlit_run
        (press_delete scenario_PIL_can_open scenario_strptime_parses
           "delete_journal_entry_2025-06-02 10:15:00")
        (streamlit_run
           (save_journal_button (Some photo) "day 2" "20250602_101500"
              "2025-06-02 10:15:00") empty_journal))
     = [ProgressSaved; UncaughtException OSError]) ∧
  (listed
     (streamlit_run
        (press_delete scenario_PIL_can_open scenario_strptime_parses
           "delete_journal_entry_2025-06-02")
        (streamlit_run
           (save_journal_button (Some pixel_photo) "day 2" "20250602_101500"
              "2025-06-02") empty_journal))
     = [ {| date := "2025-06-02";
            image_path := "progress_image_20250602_101500.png";
            note := "day 2" |} ] ∧
   shown
     (streamlit_run
        (press_delete scenario_PIL_can_open scenario_strptime_parses
           "delete_journal_entry_2025-06-02")
        (streamlit_run
           (save_journal_button (Some pixel_photo) "day 2" "20250602_101500"
              "2025-06-02") empty_journal))
     = [ProgressSaved; UncaughtException ValueError]).
Proof.
  assert (listed
    (streamlit_run
       (save_journal_button (Some pixel_photo) "" "20250602_101500"
          "2025-06-02 10:15:00") empty_journal)
    = [ {| date := "2025-06-02 10:15:00";
           image_path := "progress_image_20250602_101500.png";
           note := "No note." |} ]) as Heq by (vm_compute; reflexivity).
  split_and!; [exact Heq| |vm_compute; reflexivity..].
  rewrite Heq.
  intros (e & He & Hnote). apply list_elem_of_singleton in He as ->.
  discriminate.
Qed.

(** C4, the code at the failing input. The photo of the stored entry
    exists and the operating system refuses to remove it: the entry is
    removed from the list and the metadata file is rewritten, but the
    [OSError] of [os.remove] leaves the button body, which shows neither
    message and asks for no rerun; the only trace is the exception that
    Streamlit displays. *)
Theorem delete_image_failure_escapes :
  snd (delete_journal_entry first_entry journal_of_one_locked)
    = Raise OSError ∧
  journal_entries
    (fst (delete_journal_entry first_entry journal_of_one_locked)) = [] ∧
  files (fst (delete_journal_entry first_entry journal_of_one_locked))
    !! JOURNAL_METADATA_FILE = Some (Json []) ∧
  files (fst (delete_journal_entry first_entry journal_of_one_locked))
    !! full_image_path (image_path first_entry) = Some (Bytes [Byte.xff]) ∧
  shown (fst (delete_journal_entry first_entry journal_of_one_locked)) = [] ∧
  shown (streamlit_run (delete_journal_entry first_entry)
           journal_of_one_locked) = [UncaughtException OSError].
Proof. vm_compute. repeat split. Qed.

(** The same deletion when the photo can be removed, for comparison. *)
Example delete_image_success :
  snd (delete_journal_entry first_entry journal_of_one)
    = Raise RerunException ∧
  journal_entries (fst (delete_journal_entry first_entry journal_of_one))
    = [] ∧
  files (fst (delete_journal_entry first_entry journal_of_one))
    !! full_image_path (image_path first_entry) = None ∧
  shown (fst (delete_journal_entry first_entry journal_of_one))
    = [ImageDeleted (image_path first_entry); EntryDeleted].
Proof. vm_compute. repeat split. Qed.

(** * Further properties of the code *)

Section journal_more.
Implicit Types (w : World) (l : list JournalEntry) (x e entry : JournalEntry).

Lemma in_sync_reload w :
  match script_start w with
  | (w', Ok _) => in_sync w' ∧ files w' = files w ∧ denied w' = denied w
  | (w', Raise _) => w' = w
  end.
Proof.
  unfold script_start, in_sync, mbind, Script_bind, load_journal_entries.
  destruct (files w !! JOURNAL_METADATA_FILE) as [[?|l]|] eqn:Hf; simpl;
    [done|by rewrite Hf..].
Qed.

Lemma interaction_rerun w w' (body : Script ()) :
  body w = (w', Raise RerunException) →
  interaction body w = script_start w'.
Proof. intros Hb. unfold interaction. by rewrite Hb. Qed.

Lemma interaction_other w w' (body : Script ()) r :
  body w = (w', r) → r ≠ Raise RerunException →
  interaction body w = (w', r).
Proof.
  intros Hb Hr. unfold interaction. rewrite Hb.
  destruct r as [[]|[]]; done.
Qed.

Lemma in_sync_files w w' :
  files w' !! JOURNAL_METADATA_FILE = files w !! JOURNAL_METADATA_FILE →
  journal_entries w' = journal_entries w → in_sync w → in_sync w'.
Proof.
  unfold in_sync, load_journal_entries. intros -> ->.
  by destruct (files w !! JOURNAL_METADATA_FILE) as [[]|].
Qed.

Lemma save_journal_button_cases w (f : UploadedFile)
    (journal_note timestamp date_now : string) :
  let fname := image_filename timestamp (name f) in
  let path := full_image_path fname in
  let entry := new_entry date_now fname journal_note in
  let photo_written := <[path := Bytes (getbuffer f)]> (files w) in
  save_journal_button (Some f) journal_note timestamp date_now w =
    if decide (path ∈ denied w)
    then ({| journal_entries := journal_entries w;
             files := if decide (path ∈ truncating w)
                      then <[path := Bytes []]> (files w) else files w;
             denied := denied w; truncating := truncating w;
             shown := shown w ++ [SaveFailed OSError] |}, Ok ())
    else if decide (JOURNAL_METADATA_FILE ∈ denied w)
    then ({| journal_entries := journal_entries w ++ [entry];
             files := if decide (JOURNAL_METADATA_FILE ∈ truncating w)
                      then <[JOURNAL_METADATA_FILE := Bytes []]> photo_written
                      else photo_written;
             denied := denied w; truncating := truncating w;
             shown := shown w ++ [SaveFailed OSError] |}, Ok ())
    else ({| journal_entries := journal_entries w ++ [entry];
             files := <[JOURNAL_METADATA_FILE :=
                          Json (journal_entries w ++ [entry])]> photo_written;
             denied := denied w; truncating := truncating w;
             shown := shown w ++ [ProgressSaved] |},
          Raise RerunException).
Proof.
  intros fname path entry photo_written.
  destruct (decide (path ∈ denied w)) as [Hp|Hp].
  { unfold save_journal_button, try_except, mbind, Script_bind, open_write.
    simpl. rewrite decide_True by done.
    by destruct (decide (_ ∈ truncating w)). }
  destruct (decide (JOURNAL_METADATA_FILE ∈ denied w)) as [Hm|Hm].
  - unfold save_journal_button, try_except, mbind, Script_bind, open_write,
      save_journal_entries, open_write. simpl.
    rewrite decide_False by done. simpl. rewrite decide_True by done.
    by destruct (decide (_ ∈ truncating w)).
  - by rewrite save_journal_button_saved.
Qed.

Lemma delete_journal_entry_cases w entry :
  let path := full_image_path (image_path entry) in
  delete_journal_entry entry w =
    match list_remove entry (journal_entries w) with
    | None => (w, Raise ValueError)
    | Some remaining =>
        if decide (JOURNAL_METADATA_FILE ∈ denied w)
        then ({| journal_entries := remaining;
                 files := if decide (JOURNAL_METADATA_FILE ∈ truncating w)
                          then <[JOURNAL_METADATA_FILE := Bytes []]> (files w)
                          else files w;
                 denied := denied w; truncating := truncating w;
                 shown := shown w |}, Raise OSError)
        else
          let saved := <[JOURNAL_METADATA_FILE := Json remaining]> (files w) in
          match saved !! path with
          | None =>
              ({| journal_entries := remaining; files := saved;
                  denied := denied w; truncating := truncating w;
                  shown := shown w ++ [EntryDeleted] |}, Raise RerunException)
          | Some _ =>
              if decide (path ∈ denied w)
              then ({| journal_entries := remaining; files := saved;
                       denied := denied w; truncating := truncating w;
                       shown := shown w |}, Raise OSError)
              else ({| journal_entries := remaining;
                       files := delete path saved;
                       denied := denied w; truncating := truncating w;
                       shown := shown w ++
                         [ImageDeleted (image_path entry); EntryDeleted] |},
                    Raise RerunException)
          end
    end.
Proof.
  intros path.
  destruct (list_remove entry (journal_entries w)) as [remaining|] eqn:Hrem.
  - destruct (decide (JOURNAL_METADATA_FILE ∈ denied w)) as [Hd|Hd].
    + unfold delete_journal_entry, mbind, Script_bind, get_journal_entries,
        save_journal_entries, open_write. simpl. rewrite Hrem. simpl.
      rewrite decide_True by done.
      by destruct (decide (_ ∈ truncating w)).
    + by rewrite (delete_journal_entry_effect w entry remaining).
  - unfold delete_journal_entry, mbind, Script_bind, get_journal_entries.
    simpl. rewrite Hrem. simpl. by destruct w.
Qed.

Lemma script_start_in_sync w :
  (∀ b, files w !! JOURNAL_METADATA_FILE ≠ Some (Bytes b)) →
  in_sync (fst (script_start w)) ∧
  files (fst (script_start w)) = files w ∧
  snd (script_start w) = Ok ().
Proof.
  intros Hjson.
  unfold script_start, in_sync, mbind, Script_bind, load_journal_entries.
  destruct (files w !! JOURNAL_METADATA_FILE) as [[b|l]|] eqn:Hf; simpl;
    [by destruct (Hjson b)|by rewrite Hf..].
Qed.

Lemma streamlit_run_files w (body : Script ()) :
  files (streamlit_run body w) = files (fst (body w)) ∧
  denied (streamlit_run body w) = denied (fst (body w)).
Proof.
  unfold streamlit_run, interaction.
  destruct (body w) as [w1 [[]|e]]; simpl; [done|].
  destruct e; simpl; try done.
  unfold mbind, Script_bind, load_journal_entries.
  by destruct (files w1 !! JOURNAL_METADATA_FILE) as [[]|].
Qed.

Lemma list_remove_keeps x y l l' :
  list_remove x l = Some l' → y ≠ x → y ∈ l → y ∈ l'.
Proof.
  intros (l1 & l2 & -> & _ & ->)%list_remove_split Hne Hin.
  apply elem_of_app in Hin as [?|[?|?]%elem_of_cons]; [|done|];
    apply elem_of_app; auto.
Qed.

(** X1. When the metadata file can be written and the list in memory is
    the list of the file as a journal button is pressed, the two agree
    again once the button has run: after a save and after a delete, also
    when writing the photo or removing it failed. *)
Theorem buttons_keep_journal_in_sync w (body : Script ()) :
  JOURNAL_METADATA_FILE ∉ denied w →
  in_sync w →
  (∃ upload journal_note timestamp date_now,
      body = save_journal_button upload journal_note timestamp date_now) ∨
  (∃ entry, body = delete_journal_entry entry) →
  in_sync (fst (interaction body w)).
Proof.
  intros Hmeta Hsync [(upload & note & ts & d & ->)|(entry & ->)].
  - destruct upload as [f|].
    + pose proof (save_journal_button_cases w f note ts d) as Hc. cbv zeta in Hc.
      destruct (decide (_ ∈ denied w)).
      { rewrite (interaction_other _ _ _ _ Hc) by done.
        apply (in_sync_files w); [|done..]. cbn [fst files].
        destruct (decide (_ ∈ truncating w)); [|done].
        apply lookup_insert_ne, image_path_not_metadata. }
      rewrite decide_False in Hc by done.
      rewrite (interaction_rerun _ _ _ Hc).
      apply script_start_in_sync. intros b. simpl. by rewrite lookup_insert_eq.
    + erewrite interaction_other; [|reflexivity|done]. by apply (in_sync_files w).
  - pose proof (delete_journal_entry_cases w entry) as Hc. cbv zeta in Hc.
    destruct (list_remove entry (journal_entries w)) as [remaining|].
    2:{ by rewrite (interaction_other _ _ _ _ Hc). }
    rewrite decide_False in Hc by done.
    destruct (_ !! full_image_path (image_path entry)) as [c|] eqn:Hp.
    + destruct (decide (_ ∈ denied w)).
      * rewrite (interaction_other _ _ _ _ Hc) by done.
        unfold in_sync, load_journal_entries. simpl.
        by rewrite lookup_insert_eq.
      * rewrite (interaction_rerun _ _ _ Hc).
        apply script_start_in_sync. intros b. simpl.
        destruct (decide (full_image_path (image_path entry) = JOURNAL_METADATA_FILE)) as [->|].
        -- by rewrite lookup_delete_eq.
        -- by rewrite lookup_delete_ne, lookup_insert_eq.
    + rewrite (interaction_rerun _ _ _ Hc).
      apply script_start_in_sync. intros b. simpl. by rewrite lookup_insert_eq.
Qed.



(** X4. Two entries of the journal with the same image path share one
    photo file: deleting one of them leaves the other entry in the
    listing, and its photo is no longer on disk. *)
Theorem delete_removes_shared_photo w entry (other : JournalEntry) :
  entry ∈ journal_entries w → other ∈ journal_entries w → other ≠ entry →
  image_path other = image_path entry →
  JOURNAL_METADATA_FILE ∉ denied w →
  full_image_path (image_path entry) ∉ denied w →
  full_image_path (image_path entry) ≠ JOURNAL_METADATA_FILE →
  other ∈ listed (streamlit_run (delete_journal_entry entry) w) ∧
  files (streamlit_run (delete_journal_entry entry) w)
    !! full_image_path (image_path other) = None.
Proof.
  intros Hin Hother Hne Hsame Hmeta Hfree Hpath.
  destruct (list_remove_elem entry (journal_entries w) Hin) as [remaining Hrem].
  pose proof (delete_journal_entry_cases w entry) as Hc. cbv zeta in Hc.
  rewrite Hrem, decide_False in Hc by done.
  rewrite lookup_insert_ne in Hc by done.
  assert (other ∈ remaining) as Hkeep by (by eapply list_remove_keeps).
  rewrite Hsame. unfold streamlit_run, listed.
  destruct (files w !! full_image_path (image_path entry)) as [c|] eqn:Hf.
  - rewrite decide_False in Hc by done.
    rewrite (interaction_rerun _ _ _ Hc).
    unfold script_start, mbind, Script_bind, load_journal_entries. simpl.
    rewrite lookup_delete_ne, lookup_insert_eq by done. simpl.
    split; [by rewrite sorted_entries_perm|apply lookup_delete_eq].
  - rewrite (interaction_rerun _ _ _ Hc).
    unfold script_start, mbind, Script_bind, load_journal_entries. simpl.
    rewrite lookup_insert_eq. simpl.
    split; [by rewrite sorted_entries_perm|by rewrite lookup_insert_ne].
Qed.

(** X5. The two journal buttons touch no file but the metadata file and
    the photo concerned: every other path holds after the button what it
    held before. *)
Theorem buttons_leave_other_files w (p : string) :
  p ≠ JOURNAL_METADATA_FILE →
  (∀ entry, p ≠ full_image_path (image_path entry) →
     files (streamlit_run (delete_journal_entry entry) w) !! p = files w !! p) ∧
  (∀ upload journal_note timestamp date_now,
     (∀ f, upload = Some f →
           p ≠ full_image_path (image_filename timestamp (name f))) →
     files
       (streamlit_run
          (save_journal_button upload journal_note timestamp date_now) w) !! p
     = files w !! p).
Proof.
  intros Hmeta. split.
  - intros entry Hp. rewrite (proj1 (streamlit_run_files _ _)).
    rewrite delete_journal_entry_cases.
    destruct (list_remove entry (journal_entries w)); [|done].
    destruct (decide (JOURNAL_METADATA_FILE ∈ denied w)).
    { cbn [fst files]. destruct (decide (_ ∈ truncating w)); [|done].
      by rewrite lookup_insert_ne. }
    simpl.
    destruct (_ !! full_image_path (image_path entry)); simpl;
      [destruct (decide (_ ∈ denied w)); simpl|];
      rewrite ?lookup_delete_ne by done; by rewrite lookup_insert_ne.
  - intros upload note ts d Hp. rewrite (proj1 (streamlit_run_files _ _)).
    destruct upload as [f|]; [|done].
    specialize (Hp f eq_refl).
    rewrite save_journal_button_cases.
    destruct (decide (_ ∈ denied w)).
    { cbn [fst files]. destruct (decide (_ ∈ truncating w)); [|done].
      by rewrite lookup_insert_ne. }
    destruct (decide (_ ∈ denied w)); cbn [fst files];
      [destruct (decide (_ ∈ truncating w))|];
      rewrite ?(lookup_insert_ne _ JOURNAL_METADATA_FILE) by done;
      by rewrite lookup_insert_ne.
Qed.

Lemma leb_refl (a : string) : String.leb a a = true.
Proof.
  unfold String.leb. pose proof (String.compare_antisym a a) as Hsym.
  destruct (String.compare a a); simpl in Hsym; congruence.
Qed.

Lemma filter_date_insert_desc (d : string) x l :
  filter (λ e, date e = d) (insert_desc x l) =
  filter (λ e, date e = d) (x :: l).
Proof.
  induction l as [|y l IH]; simpl; [done|].
  destruct (String.leb (date y) (date x)) eqn:Hcmp; [done|].
  rewrite filter_cons, IH, !filter_cons.
  destruct (decide (date y = d)) as [Hy|Hy]; [|done].
  destruct (decide (date x = d)) as [Hx|Hx]; [|done].
  rewrite Hx, Hy, leb_refl in Hcmp. done.
Qed.

(** X6. The history lists exactly the entries of the journal, from the
    newest date to the oldest, and entries of one date in the order in
    which the journal holds them. *)
Theorem listing_is_stable_descending_sort l :
  sorted_entries l ≡ₚ l ∧
  StronglySorted not_older (sorted_entries l) ∧
  ∀ d, filter (λ e, date e = d) (sorted_entries l) =
       filter (λ e, date e = d) l.
Proof.
  split_and!; [apply sorted_entries_perm|apply sorted_entries_descending|].
  intros d. induction l as [|x l IH]; simpl; [done|].
  by rewrite filter_date_insert_desc, !filter_cons, IH.
Qed.

(** X18. A stored photo that PIL cannot decode stops the history section
    at its entry: when it belongs to the first listed entry, the run ends
    with the [OSError] of [st.image] whatever button is pressed, no delete
    button is created, and the journal and the files stay as they are. *)
Theorem undecodable_photo_stops_history (PIL_can_open : list Byte.byte → bool)
    (strptime_parses : string → bool) (pressed : option string) w entry
    (rest : list JournalEntry) (data : list Byte.byte) :
  sorted_entries (journal_entries w) = entry :: rest →
  strptime_parses (date entry) = true →
  files w !! full_image_path (image_path entry) = Some (Bytes data) →
  PIL_can_open data = false →
  history PIL_can_open strptime_parses pressed w = (w, Raise OSError).
Proof.
  intros Hsorted Hdate Hfile Hpil.
  unfold history, get_journal_entries. unfold mbind at 1, Script_bind at 1.
  rewrite Hsorted. cbn [history_loop]. rewrite Hdate.
  unfold mbind at 1 2, Script_bind at 1 2.
  unfold mret at 1, Script_ret at 1, os_path_exists, st_image.
  rewrite (bool_decide_true (is_Some _)) by (rewrite Hfile; eauto).
  unfold mbind at 1, Script_bind at 1.
  by rewrite Hfile, Hpil.
Qed.

Lemma history_loop_step (PIL_can_open : list Byte.byte → bool)
    (strptime_parses : string → bool) (pressed : option string)
    (keys : list string) w entry (rest : list JournalEntry) :
  strptime_parses (date entry) = true →
  photo_renders PIL_can_open w entry →
  history_loop PIL_can_open strptime_parses pressed keys (entry :: rest) w =
    if bool_decide (delete_key entry ∈ keys)
    then (w, Raise DuplicateWidgetID)
    else ((if bool_decide (pressed = Some (delete_key entry))
           then delete_journal_entry entry else mret ());;
          history_loop PIL_can_open strptime_parses pressed
            (delete_key entry :: keys) rest) w.
Proof.
  intros Hdate Hphoto. unfold photo_renders in Hphoto.
  cbn [history_loop]. rewrite Hdate.
  unfold mbind at 1 2 3. unfold Script_bind at 1 2 3.
  unfold mret at 1, Script_ret at 1, os_path_exists, st_image.
  destruct (files w !! full_image_path (image_path entry)) as [[d|]|] eqn:Hf.
  - rewrite (bool_decide_true (is_Some _)) by eauto. rewrite Hf, Hphoto.
    by destruct (bool_decide (delete_key entry ∈ keys)).
  - done.
  - rewrite (bool_decide_false (is_Some _)) by (by intros [? ?]).
    unfold mret at 1, Script_ret at 1.
    by destruct (bool_decide (delete_key entry ∈ keys)).
Qed.

(** X19. Two stored entries with the same date get the same key for their
    delete buttons (line 895). When they are the first two listed and
    their photos render, a run in which the first delete button is not
    pressed ends with [DuplicateWidgetID] at the second button, and the
    journal and the files stay as they are. *)
Theorem same_date_entries_stop_history (PIL_can_open : list Byte.byte → bool)
    (strptime_parses : string → bool) (pressed : option string) w e1 e2
    (rest : list JournalEntry) :
  sorted_entries (journal_entries w) = e1 :: e2 :: rest →
  date e2 = date e1 →
  strptime_parses (date e1) = true →
  photo_renders PIL_can_open w e1 →
  photo_renders PIL_can_open w e2 →
  pressed ≠ Some (delete_key e1) →
  history PIL_can_open strptime_parses pressed w
    = (w, Raise DuplicateWidgetID).
Proof.
  intros Hsorted Hsame Hdate Hr1 Hr2 Hpressed.
  assert (delete_key e2 = delete_key e1) as Hkey
    by (unfold delete_key; by rewrite Hsame).
  unfold history, get_journal_entries. unfold mbind at 1, Script_bind at 1.
  rewrite Hsorted, history_loop_step by done.
  rewrite (bool_decide_false (_ ∈ [])) by apply not_elem_of_nil.
  rewrite (bool_decide_false (pressed = _)) by done.
  unfold mbind at 1, Script_bind at 1, mret at 1, Script_ret at 1.
  rewrite history_loop_step by (by rewrite ?Hsame).
  rewrite Hkey. by rewrite bool_decide_true by apply list_elem_of_here.
Qed.

End journal_more.

Section file_names.

Lemma string_app_assoc (a b c : string) : (a +:+ b) +:+ c = a +:+ b +:+ c.
Proof.
  induction a as [|x a IH]; [done|]. exact (f_equal (String x) IH).
Qed.

Lemma split_last (s : string) :
  ∃ init ext,
    split "." s = init ++ [ext] ∧
    ¬ has_char "." ext ∧
    s = foldr (λ p acc, p +:+ "." +:+ acc) ext init.
Proof.
  induction s as [|c s (init & ext & Hs & Hdot & Heq)]; simpl.
  - exists [], "". split_and!; [done| |done].
    intros (a & b & Hab). by destruct a.
  - destruct (Ascii.eqb_spec c ".") as [->|Hc].
    + exists ("" :: init), ext. rewrite Hs. split_and!; [done..|].
      simpl. by rewrite <- Heq.
    + rewrite Hs. destruct init as [|p init]; simpl.
      * exists [], (String c ext). split_and!; [done| |].
        -- intros (a & b & Hab). destruct a as [|a0 a]; simpl in Hab.
           ++ by injection Hab.
           ++ injection Hab as _ Hab. apply Hdot. by exists a, b.
        -- simpl in Heq. by rewrite Heq.
      * exists (String c p :: init), ext. split_and!; [done..|].
        simpl in *. by rewrite Heq.
Qed.

(** X7. The extension given to a saved photo is the part of the uploaded
    name after its last dot: it holds no dot, and the name is either the
    extension itself (a name without dot) or some stem, a dot and the
    extension. *)
Theorem file_extension_after_last_dot (name : string) :
  ¬ has_char "." (file_extension name) ∧
  (name = file_extension name ∨
   ∃ stem, name = stem +:+ "." +:+ file_extension name).
Proof.
  destruct (split_last name) as (init & ext & Hs & Hdot & Heq).
  unfold file_extension. rewrite Hs, last_snoc. simpl.
  split; [done|]. clear Hs. revert name Heq.
  induction init as [|p init IH]; intros name Heq; simpl in Heq; [by left|].
  right. destruct (IH _ eq_refl) as [Hone|(stem & Hstem)].
  - exists p. by rewrite Heq, Hone.
  - exists (p +:+ "." +:+ stem). rewrite Heq, Hstem.
    by rewrite !string_app_assoc.
Qed.

End file_names.

Section resolver_more.
Implicit Types (df : DataFrame) (acne key skin_type : string) (r : Row).

Lemma first_match_elem df acne key r :
  first_match df acne key r →
  r ∈ df ∧ tingkat r = acne ∧ jenis_kulit r = key.
Proof.
  intros (b & a & -> & Ha & Hk & _). split_and!; [|done..].
  apply elem_of_app. right. left.
Qed.

Lemma user_skin_type_csv_cases skin_type :
  user_skin_type_csv skin_type =
    if decide (skin_type = "Berminyak") then "oily" else "semua".
Proof.
  unfold user_skin_type_csv. rewrite map_lookup_cases.
  case_decide; [done|]. by case_decide.
Qed.

(** X8. A recommendation, when one is returned, is a row of the table
    with the detected acne type whose skin type is "semua", or "oily" for
    the selection "Berminyak"; rows with any other skin type are never
    returned. *)
Theorem recom_row_sound df acne skin_type r :
  recom_row df acne skin_type = Some r →
  r ∈ df ∧ tingkat r = acne ∧
  (jenis_kulit r = "semua" ∨
   (skin_type = "Berminyak" ∧ jenis_kulit r = "oily")).
Proof.
  unfold recom_row. rewrite user_skin_type_csv_cases.
  intros [H|[_ H]]%recom_row_for_Some;
    apply first_match_elem in H as (Hin & Ha & Hk);
    (split_and!; [done..|]); [|by left].
  case_decide; [right|left]; done.
Qed.

(** X9. Every selection other than "Berminyak" gets what the selection
    "Tidak Tahu / Lewati" gets; and when a lookup finds nothing for some
    selection, it finds nothing for "Tidak Tahu / Lewati" either. *)
Theorem skip_selection_is_generic df acne :
  (∀ skin_type, skin_type ≠ "Berminyak" →
     recom_row df acne skin_type = recom_row df acne "Tidak Tahu / Lewati") ∧
  (∀ skin_type, recom_row df acne skin_type = None →
     recom_row df acne "Tidak Tahu / Lewati" = None).
Proof.
  unfold recom_row. split; intros skin_type.
  - intros Hne. rewrite !user_skin_type_csv_cases.
    by rewrite decide_False, decide_False.
  - rewrite !user_skin_type_csv_cases.
    rewrite (decide_False (P := "Tidak Tahu / Lewati" = "Berminyak")) by done.
    rewrite !recom_row_for_None. tauto.
Qed.

End resolver_more.

Section classification_more.
Implicit Types (v : list score) (class_names : list string).

Lemma classify_Ok v class_names d :
  classify [v] class_names = Ok d →
  ∃ label,
    class_names !! acne_index d = Some label ∧
    acne_class_raw d = strip label ∧
    join_key d = acne_class_for_csv (strip label) ∧
    first_maximum v (acne_index d) (acne_confidence d).
Proof.
  intros Hd.
  destruct (np_argmax [v]) as [i|e] eqn:Hi.
  2:{ unfold classify in Hd. by rewrite Hi in Hd. }
  destruct (np_argmax_first_maximum v i Hi) as (m & Hm).
  rewrite (classify_unfold v class_names i m Hi (proj1 Hm)) in Hd.
  destruct (class_names !! i) as [label|] eqn:Hl; [|done].
  injection Hd as <-. simpl. eauto.
Qed.

Lemma total_le_scaled v (m : score) :
  (∀ y, y ∈ v → (y <= m)%Q) →
  (total v <= inject_Z (Z.of_nat (length v)) * m)%Q.
Proof.
  induction v as [|x v IH]; intros Hle.
  - simpl. rewrite Qmult_0_l. apply Qle_refl.
  - change (total (x :: v)) with (x + total v)%Q.
    rewrite length_cons, Nat2Z.inj_succ. unfold Z.succ.
    rewrite inject_Z_plus, Qmult_plus_distr_l, Qmult_1_l, Qplus_comm.
    apply Qplus_le_compat; [|apply Hle; left].
    apply IH. intros y Hy. apply Hle. by right.
Qed.

(** X10. The confidence of a detection lies between 0 and 1 when all
    scores do; and when the scores sum to 1, the confidence times the
    number of scores is at least 1. *)
Theorem confidence_bounds v class_names d :
  classify [v] class_names = Ok d →
  ((∀ y, y ∈ v → (0 <= y <= 1)%Q) → (0 <= acne_confidence d <= 1)%Q) ∧
  ((total v == 1)%Q →
     (1 <= inject_Z (Z.of_nat (length v)) * acne_confidence d)%Q).
Proof.
  intros (label & _ & _ & _ & Hat & Hle & _)%classify_Ok. split.
  - intros Hrange. apply Hrange. by eapply list_elem_of_lookup_2.
  - intros Hsum. rewrite <- Hsum. apply total_le_scaled.
    intros y [k Hk]%list_elem_of_lookup_1. by eapply Hle.
Qed.

End classification_more.

Section strings.

Lemma string_app_nil_r (a : string) : a +:+ "" = a.
Proof. induction a as [|x a IH]; [done|]. exact (f_equal (String x) IH). Qed.

Lemma rev_app_append (s t : string) :
  String.rev_app s t = String.rev s +:+ t.
Proof.
  unfold String.rev. revert t. induction s as [|a s IH]; intros t; [done|].
  simpl. rewrite (IH (String a t)), (IH (String a "")).
  by rewrite string_app_assoc.
Qed.

Lemma rev_app_rev_app (s t u : string) :
  String.rev_app (String.rev_app s t) u = String.rev_app t (s +:+ u).
Proof.
  revert t. induction s as [|a s IH]; intros t; [done|].
  simpl. by rewrite IH.
Qed.

Lemma rev_involutive (s : string) : String.rev (String.rev s) = s.
Proof.
  unfold String.rev. rewrite rev_app_rev_app. simpl. apply string_app_nil_r.
Qed.

Lemma rev_app_snoc (s t : string) (c : ascii) :
  String.rev_app (s +:+ String c "") t = String c (String.rev_app s t).
Proof.
  revert t. induction s as [|a s IH]; intros t; [done|].
  exact (IH (String a t)).
Qed.

Lemma rev_snoc (s : string) (c : ascii) :
  String.rev (s +:+ String c "") = String c (String.rev s).
Proof. apply rev_app_snoc. Qed.

Lemma rev_cons (s : string) (c : ascii) :
  String.rev (String c s) = String.rev s +:+ String c "".
Proof. unfold String.rev at 1. simpl. apply rev_app_append. Qed.

Lemma lstrip_head (s : string) :
  lstrip s = "" ∨ ∃ c r, lstrip s = String c r ∧ is_space c = false.
Proof.
  induction s as [|c s IH]; simpl; [by left|].
  destruct (is_space c) eqn:Hc; [done|]. right. eauto.
Qed.

Lemma lstrip_idemp (s : string) : lstrip (lstrip s) = lstrip s.
Proof.
  destruct (lstrip_head s) as [->|(c & r & -> & Hc)]; [done|].
  simpl. by rewrite Hc.
Qed.

Lemma lstrip_snoc (s : string) (c : ascii) :
  is_space c = false →
  ∃ r, lstrip (s +:+ String c "") = r +:+ String c "".
Proof.
  intros Hc. induction s as [|a s IH].
  - exists "". simpl. by rewrite Hc.
  - change (String a s +:+ String c "") with (String a (s +:+ String c "")).
    simpl. destruct (is_space a); [done|].
    by exists (String a s).
Qed.

Lemma lstrip_fix_rstrip (t : string) :
  lstrip t = t →
  lstrip (String.rev (lstrip (String.rev t))) =
  String.rev (lstrip (String.rev t)).
Proof.
  intros Ht. destruct (lstrip_head t) as [Hnil|(c & r & Hcr & Hc)];
    rewrite Ht in *; subst t; [done|].
  rewrite rev_cons.
  destruct (lstrip_snoc (String.rev r) c Hc) as [y ->].
  rewrite rev_snoc. simpl. by rewrite Hc.
Qed.

Lemma strip_idemp (s : string) : strip (strip s) = strip s.
Proof.
  unfold strip.
  rewrite (lstrip_fix_rstrip (lstrip s)) by apply lstrip_idemp.
  by rewrite rev_involutive, lstrip_idemp.
Qed.

End strings.

Section assets.

(** X11. The labels that [load_ml_assets] returns are not empty as a list
    and carry no surrounding white space, so that the raw label of a
    detection is the element of the label list at the selected index,
    unchanged by the [strip] of line 647. *)
Theorem loaded_labels_are_stripped {Model : Type}
    (model_file : option (result Model)) (labels_file : option (result string))
    (model : Model) (class_names : list string) :
  load_ml_assets model_file labels_file = Some (model, class_names) →
  class_names ≠ [] ∧
  (∀ label, label ∈ class_names → strip label = label) ∧
  (∀ v d, classify [v] class_names = Ok d →
          class_names !! acne_index d = Some (acne_class_raw d)).
Proof.
  unfold load_ml_assets. intros Hload.
  destruct model_file as [[m|]|], labels_file as [[text|]|]; try done.
  cbv zeta in Hload.
  destruct (strip <$> readlines text) as [|l ls] eqn:Hnames; [done|].
  injection Hload as <- <-.
  assert (∀ label, label ∈ l :: ls → strip label = label) as Hfix.
  { intros label. rewrite <- Hnames.
    intros (line & -> & _)%list_elem_of_fmap. apply strip_idemp. }
  split_and!; [done|done|].
  intros v d (label & Hl & -> & _)%classify_Ok. rewrite Hl. f_equal.
  symmetry. apply Hfix. by eapply list_elem_of_lookup_2.
Qed.

Lemma append_nil_inv (p q : string) : p +:+ q = "" → p = "" ∧ q = "".
Proof.
  destruct p; intros H; [split; [done|exact H]|discriminate H].
Qed.

Lemma app_length (p q : string) :
  String.length (p +:+ q) = (String.length p + String.length q)%nat.
Proof. induction p as [|c p IH]; [done|]. simpl. by rewrite <- IH. Qed.

Lemma sub_trailing_s_cases (s : string) :
  (∃ p, s = p +:+ "s" ∧ sub_trailing_s s = p) ∨
  (∃ p, s = p +:+ String "s" (String "010" "") ∧
        sub_trailing_s s = p +:+ String "010" "") ∨
  (¬ ends_with "s" s ∧ ¬ ends_with (String "s" (String "010" "")) s ∧
   sub_trailing_s s = s).
Proof.
  induction s as [|c rest IH]; simpl.
  - right. right. split_and!; [| |done]; intros (p & Hp);
      symmetry in Hp; by apply append_nil_inv in Hp as [_ ?].
  - destruct (Ascii.eqb_spec c "s") as [->|Hc]; simpl.
    + destruct (String.eqb_spec rest "") as [->|Hr1]; simpl.
      { left. by exists "". }
      destruct (String.eqb_spec rest (String "010" "")) as [->|Hr2]; simpl.
      { right. left. by exists "". }
      destruct IH as [(p & -> & ->)|[(p & -> & ->)|(Hn1 & Hn2 & ->)]].
      * left. by exists (String "s" p).
      * right. left. by exists (String "s" p).
      * right. right. split_and!; [| |done]; intros ([|a p] & Hp).
        -- by injection Hp.
        -- injection Hp as _ Hp. apply Hn1. by exists p.
        -- by injection Hp.
        -- injection Hp as _ Hp. apply Hn2. by exists p.
    + destruct IH as [(p & -> & ->)|[(p & -> & ->)|(Hn1 & Hn2 & ->)]].
      * left. by exists (String c p).
      * right. left. by exists (String c p).
      * right. right. split_and!; [| |done]; intros ([|a p] & Hp).
        -- by injection Hp.
        -- injection Hp as _ Hp. apply Hn1. by exists p.
        -- by injection Hp.
        -- injection Hp as _ Hp. apply Hn2. by exists p.
Qed.

Lemma sub_trailing_s_fixed (s : string) :
  sub_trailing_s s = s ↔
  ¬ ends_with "s" s ∧ ¬ ends_with (String "s" (String "010" "")) s.
Proof.
  destruct (sub_trailing_s_cases s)
    as [(p & Hs & Hsub)|[(p & Hs & Hsub)|(Hn1 & Hn2 & Hsub)]].
  - split.
    + intros Heq. rewrite Hsub in Heq. rewrite Heq in Hs at 1.
      apply (f_equal String.length) in Hs. rewrite app_length in Hs.
      simpl in Hs. lia.
    + intros [Hn _]. destruct Hn. by exists p.
  - split.
    + intros Heq. rewrite Hsub in Heq. rewrite <- Heq in Hs.
      apply (f_equal String.length) in Hs. rewrite !app_length in Hs.
      simpl in Hs. lia.
    + intros [_ Hn]. destruct Hn. by exists p.
  - done.
Qed.

(** X12. A table cell holding the text of a label is normalised at load
    to the join key of that label exactly when the lower-cased label is
    one of the four plural forms or does not end in "s" (nor in "s"
    before a final line feed). *)
Theorem table_key_agrees_with_join_key (x : string) :
  normalize_tingkat (Text x) = acne_class_for_csv x ↔
  lower x ∈ plural_forms ∨
  (¬ ends_with "s" (lower x) ∧
   ¬ ends_with (String "s" (String "010" "")) (lower x)).
Proof.
  unfold normalize_tingkat. simpl. rewrite acne_class_for_csv_cases.
  unfold plural_forms. rewrite !elem_of_cons, elem_of_nil.
  destruct (decide (lower x = "blackheads")) as [->|?];
    [split; [intros _; tauto|intros _; reflexivity]|].
  destruct (decide (lower x = "whiteheads")) as [->|?];
    [split; [intros _; tauto|intros _; reflexivity]|].
  destruct (decide (lower x = "papules")) as [->|?];
    [split; [intros _; tauto|intros _; reflexivity]|].
  destruct (decide (lower x = "pustules")) as [->|?];
    [split; [intros _; tauto|intros _; reflexivity]|].
  rewrite sub_trailing_s_fixed. tauto.
Qed.

End assets.

Section table.

Lemma zip_rows_normalized (t j k r : list cell) :
  zip_rows ((λ c, Text (normalize_tingkat c)) <$> t)
           ((λ c, Text (normalize_jenis_kulit c)) <$> j) k r =
  (λ row, {| tingkat := sub_trailing_s (lower (tingkat row));
             jenis_kulit := lower (jenis_kulit row);
             kandungan := kandungan row;
             rekomendasi := rekomendasi row |}) <$> zip_rows t j k r.
Proof.
  revert j k r. induction t as [|a t IH]; intros [|b j] [|c k] [|d r];
    simpl; try done.
  by rewrite IH.
Qed.

Lemma required_cols_present (df : Frame) :
  forallb (λ col, bool_decide (is_Some (df !! col))) required_cols = true ↔
  ∀ col, col ∈ required_cols → is_Some (df !! col).
Proof.
  rewrite forallb_forall. split.
  - intros H col Hcol.
    apply (proj1 (bool_decide_eq_true (is_Some (df !! col)))), H.
    by apply list_elem_of_In.
  - intros H col Hcol.
    apply (proj2 (bool_decide_eq_true (is_Some (df !! col)))), H.
    by apply list_elem_of_In.
Qed.

(** X13. A recommendation table is returned only for a file that was read
    and has the four required columns; it has the columns of the file, and
    its rows are the rows of the file in order, with the acne type
    lower-cased and relieved of one final "s", the skin type lower-cased,
    and ingredients and tips untouched. *)
Theorem loaded_table_is_normalized (csv_file : option (result Frame))
    (loaded : Frame) :
  load_recommendation_data csv_file = Some loaded →
  ∃ df,
    csv_file = Some (Ok df) ∧
    (∀ col, col ∈ required_cols → is_Some (df !! col)) ∧
    dom loaded = dom df ∧
    rows_of loaded =
      (λ row, {| tingkat := sub_trailing_s (lower (tingkat row));
                 jenis_kulit := lower (jenis_kulit row);
                 kandungan := kandungan row;
                 rekomendasi := rekomendasi row |}) <$> rows_of df.
Proof.
  unfold load_recommendation_data.
  destruct csv_file as [[df|]|]; [|done..].
  destruct (forallb _ required_cols) eqn:Hcols; [|done].
  pose proof (proj1 (required_cols_present df) Hcols) as Hpresent;
    clear Hcols; rename Hpresent into Hcols. intros [= <-].
  exists df. split_and!; [done..| |].
  - rewrite dom_insert_lookup_L.
    + apply dom_insert_lookup_L, Hcols. unfold required_cols.
      rewrite !elem_of_cons; auto.
    + rewrite lookup_insert_ne by done. apply Hcols. unfold required_cols.
      rewrite !elem_of_cons; auto.
  - unfold rows_of.
    rewrite lookup_insert_ne, lookup_insert_eq by done.
    rewrite lookup_insert_eq.
    rewrite (lookup_insert_ne _ "tingkat" "jenis kulit") by done.
    rewrite !(lookup_insert_ne _ _ "kandungan") by done.
    rewrite !(lookup_insert_ne _ _ "rekomendasi") by done.
    simpl. apply zip_rows_normalized.
Qed.

(** X14. A file that lacks one of the four required columns gives no
    table. *)
Theorem table_without_required_column (df : Frame) (col : string) :
  col ∈ required_cols → df !! col = None →
  load_recommendation_data (Some (Ok df)) = None.
Proof.
  intros Hcol Hnone. unfold load_recommendation_data.
  destruct (forallb _ required_cols) eqn:Hcols; [|done].
  pose proof (proj1 (required_cols_present df) Hcols) as Hpresent;
    clear Hcols; rename Hpresent into Hcols.
  destruct (Hcols col Hcol) as [? ?]. congruence.
Qed.

End table.

Section display.

(** X15. The "Learn More" expander chooses its text on the lower-cased raw
    label: a label that the plural lookup of lines 653-656 rewrites gets
    the placeholder text, and a specific text is shown exactly for the six
    singular names. *)
Theorem rewritten_labels_get_no_text (acne_class_raw : string) :
  (acne_class_for_csv acne_class_raw ≠ lower acne_class_raw →
   learn_more acne_class_raw = MoreSoon) ∧
  (learn_more acne_class_raw ≠ MoreSoon ↔
   lower acne_class_raw ∈
     ["blackhead"; "whitehead"; "papule"; "pustule"; "cystic"; "lv0"]).
Proof.
  split.
  - rewrite acne_class_for_csv_cases. unfold learn_more.
    repeat (case_decide as Heq;
            [rewrite Heq; intros _; reflexivity|clear Heq]).
    intros H. by destruct H.
  - unfold learn_more. rewrite !elem_of_cons, elem_of_nil.
    destruct (String.eqb_spec (lower acne_class_raw) "blackhead");
      [split; [tauto|done]|].
    destruct (String.eqb_spec (lower acne_class_raw) "whitehead");
      [split; [tauto|done]|].
    destruct (String.eqb_spec (lower acne_class_raw) "papule");
      [split; [tauto|done]|].
    destruct (String.eqb_spec (lower acne_class_raw) "pustule");
      [split; [tauto|done]|].
    destruct (String.eqb_spec (lower acne_class_raw) "cystic");
      [split; [tauto|done]|].
    destruct (String.eqb_spec (lower acne_class_raw) "lv0");
      [split; [tauto|done]|].
    split; [done|tauto].
Qed.

End display.

Section search_facts.
Variable re_compile_ignorecase : string → option (string → bool).
Implicit Types (df : DataFrame) (selected : list string).

Lemma isin_or_all_true selected (value : string) :
  isin_or_all selected value = true ↔ selected = [] ∨ value ∈ selected.
Proof.
  destruct selected as [|x l]; simpl; [by intuition|].
  rewrite bool_decide_eq_true. split; [by right|].
  by intros [?|?].
Qed.

Lemma filter_all {A} (P : A → Prop) `{!∀ x, Decision (P x)} (l : list A) :
  (∀ x, x ∈ l → P x) → filter P l = l.
Proof.
  induction l as [|x l IH]; intros Hall; [done|].
  rewrite filter_cons_True by (apply Hall; left).
  f_equal. apply IH. intros y Hy. apply Hall. by right.
Qed.

Lemma elem_of_unique (l : list string) (x : string) : x ∈ unique l ↔ x ∈ l.
Proof.
  induction l as [|y l IH]; simpl; [done|].
  rewrite !elem_of_cons, list_elem_of_filter, IH.
  destruct (decide (x = y)); tauto.
Qed.

Lemma NoDup_unique (l : list string) : NoDup (unique l).
Proof.
  induction l as [|y l IH]; simpl; constructor.
  - rewrite list_elem_of_filter. tauto.
  - by apply NoDup_filter.
Qed.

Lemma perform_search_cases df (selected_tingkat selected_jenis_kulit : list string)
    (text : string) :
  perform_search re_compile_ignorecase df selected_tingkat
    selected_jenis_kulit text =
  if decide (selected_tingkat = [] ∧ selected_jenis_kulit = [] ∧ text = "")
  then SelectCriterion
  else if decide (text = "")
  then
    match
      filter (λ r,
        (selected_tingkat = [] ∨ tingkat r ∈ selected_tingkat) ∧
        (selected_jenis_kulit = [] ∨
         jenis_kulit r ∈ selected_jenis_kulit)) df
    with
    | [] => NoMatch
    | rows => Found rows
    end
  else
    match re_compile_ignorecase text with
    | None => PatternError
    | Some found_in =>
        match
          filter (λ r,
            (selected_tingkat = [] ∨ tingkat r ∈ selected_tingkat) ∧
            (selected_jenis_kulit = [] ∨
             jenis_kulit r ∈ selected_jenis_kulit) ∧
            found_in (kandungan_text r) = true) df
        with
        | [] => NoMatch
        | rows => Found rows
        end
    end.
Proof.
  assert (filter (λ r, (selected_tingkat = [] ∨ tingkat r ∈ selected_tingkat) ∧
                       (selected_jenis_kulit = [] ∨
                        jenis_kulit r ∈ selected_jenis_kulit)) df =
          filter (λ r, isin_or_all selected_jenis_kulit (jenis_kulit r) = true)
            (filter (λ r, isin_or_all selected_tingkat (tingkat r) = true) df))
    as Hno_text.
  { rewrite !list_filter_filter. apply list_filter_iff. intros r.
    rewrite !isin_or_all_true. tauto. }
  assert (∀ found_in : string → bool,
    filter (λ r, (selected_tingkat = [] ∨ tingkat r ∈ selected_tingkat) ∧
                 (selected_jenis_kulit = [] ∨
                  jenis_kulit r ∈ selected_jenis_kulit) ∧
                 found_in (kandungan_text r) = true) df =
    filter (λ r, found_in (kandungan_text r) = true)
      (filter (λ r, isin_or_all selected_jenis_kulit (jenis_kulit r) = true)
         (filter (λ r, isin_or_all selected_tingkat (tingkat r) = true) df)))
    as Htext.
  { intros found_in. rewrite !list_filter_filter. apply list_filter_iff.
    intros r. rewrite !isin_or_all_true. tauto. }
  unfold perform_search.
  destruct (String.eqb_spec text "") as [Ht|Ht].
  - rewrite (decide_True (P := text = "")) by done. rewrite Hno_text.
    destruct selected_tingkat, selected_jenis_kulit;
      [by rewrite decide_True|rewrite decide_False by (intros (?&?&?); done)..];
      match goal with |- context [filter ?P (filter ?Q df)] =>
        by destruct (filter P (filter Q df)) end.
  - rewrite (decide_False (P := text = "")) by done.
    rewrite decide_False by (intros (?&?&?); done).
    destruct selected_tingkat, selected_jenis_kulit;
      destruct (re_compile_ignorecase text) as [found_in|]; try done;
      rewrite Htext;
      match goal with |- context [filter ?P (filter ?Q (filter ?R df))] =>
        by destruct (filter P (filter Q (filter R df))) end.
Qed.

(** X16. The search warns exactly when no criterion is given, fails on
    the pattern exactly when a non-empty search text does not compile, and
    otherwise finds the rows of the table, in table order, that meet every
    given criterion (an empty selection or text being no criterion),
    reporting no match when there is none. *)
Theorem perform_search_outcome df (selected_tingkat selected_jenis_kulit : list string)
    (text : string) :
  (perform_search re_compile_ignorecase df selected_tingkat
     selected_jenis_kulit text = SelectCriterion ↔
   selected_tingkat = [] ∧ selected_jenis_kulit = [] ∧ text = "") ∧
  (perform_search re_compile_ignorecase df selected_tingkat
     selected_jenis_kulit text = PatternError ↔
   text ≠ "" ∧ re_compile_ignorecase text = None) ∧
  (∀ found_in,
     selected_tingkat ≠ [] ∨ selected_jenis_kulit ≠ [] ∨ text ≠ "" →
     (text ≠ "" → re_compile_ignorecase text = Some found_in) →
     perform_search re_compile_ignorecase df selected_tingkat
       selected_jenis_kulit text =
       match
         filter (λ r,
           (selected_tingkat = [] ∨ tingkat r ∈ selected_tingkat) ∧
           (selected_jenis_kulit = [] ∨
            jenis_kulit r ∈ selected_jenis_kulit) ∧
           (text = "" ∨ found_in (kandungan_text r) = true)) df
       with
       | [] => NoMatch
       | rows => Found rows
       end).
Proof.
  rewrite perform_search_cases. split_and!.
  - case_decide as Hall; [done|]. split; [|done].
    destruct (decide (text = "")); [|destruct (re_compile_ignorecase text)];
      try done;
      match goal with |- context [filter ?P df] =>
        by destruct (filter P df) end.
  - case_decide as Hall.
    { split; [done|]. by intros [? _]; destruct Hall as (_ & _ & ?). }
    destruct (decide (text = "")) as [Ht|Ht].
    + split; [|by intros [? _]].
      match goal with |- context [filter ?P df] =>
        by destruct (filter P df) end.
    + destruct (re_compile_ignorecase text); [|done].
      split; [|by intros [_ ?]].
      match goal with |- context [filter ?P df] =>
        by destruct (filter P df) end.
  - intros found_in Hsome Hre.
    rewrite decide_False by (intros (?&?&?); by destruct Hsome as [?|[?|?]]).
    destruct (decide (text = "")) as [Ht|Ht].
    + match goal with |- match filter ?P df with _ => _ end =
                         match filter ?Q df with _ => _ end =>
        rewrite (list_filter_iff P Q); [done|] end.
      intros r. tauto.
    + rewrite (Hre Ht).
      match goal with |- match filter ?P df with _ => _ end =
                         match filter ?Q df with _ => _ end =>
        rewrite (list_filter_iff P Q); [done|] end.
      intros r. tauto.
Qed.

(** X17. The acne types offered by the search are the distinct values of
    the table's acne-type column; selecting all of them restricts the
    search no more than selecting none, as long as another criterion is
    given. *)
Theorem all_options_restrict_nothing df (selected_jenis_kulit : list string)
    (text : string) :
  selected_jenis_kulit ≠ [] ∨ text ≠ "" →
  NoDup (all_tingkat df) ∧
  (∀ x, x ∈ all_tingkat df ↔ ∃ r, r ∈ df ∧ tingkat r = x) ∧
  perform_search re_compile_ignorecase df (all_tingkat df)
    selected_jenis_kulit text =
  perform_search re_compile_ignorecase df [] selected_jenis_kulit text.
Proof.
  intros Hcrit. split_and!.
  - apply NoDup_unique.
  - intros x. unfold all_tingkat.
    rewrite elem_of_unique, list_elem_of_fmap.
    split; [intros (r & -> & ?); eauto|intros (r & ? & <-); eauto].
  - assert (filter (λ r, isin_or_all (all_tingkat df) (tingkat r) = true) df
            = filter (λ r, isin_or_all [] (tingkat r) = true) df) as Hsame.
    { rewrite !filter_all; [done|done|].
      intros r Hr. apply isin_or_all_true. right.
      apply elem_of_unique. by apply list_elem_of_fmap_2. }
    unfold perform_search. rewrite Hsame.
    destruct (all_tingkat df), selected_jenis_kulit,
      (String.eqb_spec text ""); try done.
    by destruct Hcrit.
Qed.

End search_facts.

(** ** Instances of the further properties *)

Lemma buttons_keep_journal_in_sync_witness :
  (JOURNAL_METADATA_FILE ∉ denied journal_of_one_locked) ∧
  in_sync journal_of_one_locked ∧
  in_sync (fst (interaction (delete_journal_entry first_entry)
                  journal_of_one_locked)).
Proof.
  assert (JOURNAL_METADATA_FILE ∉ denied journal_of_one_locked) as Hmeta.
  { apply (bool_decide_unpack _). vm_compute. exact I. }
  assert (in_sync journal_of_one_locked) as Hsync by (vm_compute; reflexivity).
  split; [exact Hmeta|]. split; [exact Hsync|].
  apply (buttons_keep_journal_in_sync journal_of_one_locked
           (delete_journal_entry first_entry) Hmeta Hsync).
  right. by exists first_entry.
Defined.



Lemma delete_removes_shared_photo_witness :
  second_entry ∈
    listed (streamlit_run (delete_journal_entry first_entry)
              journal_shared_photo) ∧
  files (streamlit_run (delete_journal_entry first_entry)
           journal_shared_photo)
    !! full_image_path (image_path second_entry) = None.
Proof.
  apply (delete_removes_shared_photo journal_shared_photo first_entry
           second_entry).
  - apply (bool_decide_unpack _). vm_compute. exact I.
  - apply (bool_decide_unpack _). vm_compute. exact I.
  - discriminate.
  - reflexivity.
  - apply not_elem_of_empty.
  - apply not_elem_of_empty.
  - discriminate.
Defined.

Lemma buttons_leave_other_files_witness :
  "progress_journal_data/notes.txt" ≠ JOURNAL_METADATA_FILE ∧
  "progress_journal_data/notes.txt"
    ≠ full_image_path (image_path first_entry) ∧
  files journal_with_notes !! "progress_journal_data/notes.txt"
    = Some (Bytes [Byte.x68; Byte.x69]) ∧
  files (streamlit_run (delete_journal_entry first_entry) journal_with_notes)
    !! "progress_journal_data/notes.txt"
    = Some (Bytes [Byte.x68; Byte.x69]) ∧
  files (streamlit_run (delete_journal_entry first_entry) journal_with_notes)
    !! full_image_path (image_path first_entry) = None ∧
  files
    (streamlit_run
       (save_journal_button (Some pixel_photo) "day 2" "20250602_101500"
          "2025-06-02 10:15:00") journal_with_notes)
    !! "progress_journal_data/notes.txt"
    = Some (Bytes [Byte.x68; Byte.x69]) ∧
  files
    (streamlit_run
       (save_journal_button (Some pixel_photo) "day 2" "20250602_101500"
          "2025-06-02 10:15:00") journal_with_notes)
    !! full_image_path (image_filename "20250602_101500" (name pixel_photo))
    = Some (Bytes (getbuffer pixel_photo)).
Proof.
  assert ("progress_journal_data/notes.txt" ≠ JOURNAL_METADATA_FILE) as Hp
    by discriminate.
  assert (files journal_with_notes !! "progress_journal_data/notes.txt"
          = Some (Bytes [Byte.x68; Byte.x69])) as Hnotes
    by (vm_compute; reflexivity).
  destruct (buttons_leave_other_files journal_with_notes
              "progress_journal_data/notes.txt" Hp) as [Hdelete Hsave].
  split_and!.
  - exact Hp.
  - discriminate.
  - exact Hnotes.
  - rewrite <- Hnotes. apply Hdelete. discriminate.
  - vm_compute. reflexivity.
  - rewrite <- Hnotes. apply Hsave. intros f [= <-]. discriminate.
  - vm_compute. reflexivity.
Defined.

Lemma undecodable_photo_stops_history_witness :
  sorted_entries (journal_entries journal_undecodable)
    = [ {| date := "2025-06-02 10:15:00";
           image_path := "progress_image_20250602_101500.jpg";
           note := "day 2" |} ] ∧
  files journal_undecodable
    !! "progress_journal_data/progress_image_20250602_101500.jpg"
    = Some (Bytes (getbuffer photo)) ∧
  scenario_PIL_can_open (getbuffer photo) = false ∧
  history scenario_PIL_can_open scenario_strptime_parses
    (Some "delete_journal_entry_2025-06-02 10:15:00") journal_undecodable
    = (journal_undecodable, Raise OSError).
Proof.
  assert (sorted_entries (journal_entries journal_undecodable)
          = [ {| date := "2025-06-02 10:15:00";
                 image_path := "progress_image_20250602_101500.jpg";
                 note := "day 2" |} ]) as Hsorted
    by (vm_compute; reflexivity).
  assert (files journal_undecodable
            !! "progress_journal_data/progress_image_20250602_101500.jpg"
          = Some (Bytes (getbuffer photo))) as Hfile
    by (vm_compute; reflexivity).
  assert (scenario_PIL_can_open (getbuffer photo) = false) as Hpil
    by (vm_compute; reflexivity).
  split_and!; [exact Hsorted|exact Hfile|exact Hpil|].
  apply (undecodable_photo_stops_history scenario_PIL_can_open
           scenario_strptime_parses _ journal_undecodable _ []
           (getbuffer photo) Hsorted); [|exact Hfile|exact Hpil].
  vm_compute. reflexivity.
Defined.

Lemma same_date_entries_stop_history_witness :
  sorted_entries (journal_entries journal_same_second)
    = [ {| date := "2025-06-02 10:15:00";
           image_path := "progress_image_20250602_101500.png";
           note := "day 2" |};
        {| date := "2025-06-02 10:15:00";
           image_path := "progress_image_20250602_101500.png";
           note := "again" |} ] ∧
  history scenario_PIL_can_open scenario_strptime_parses None
    journal_same_second
    = (journal_same_second, Raise DuplicateWidgetID).
Proof.
  assert (sorted_entries (journal_entries journal_same_second)
    = [ {| date := "2025-06-02 10:15:00";
           image_path := "progress_image_20250602_101500.png";
           note := "day 2" |};
        {| date := "2025-06-02 10:15:00";
           image_path := "progress_image_20250602_101500.png";
           note := "again" |} ]) as Hsorted
    by (vm_compute; reflexivity).
  split; [exact Hsorted|].
  apply (same_date_entries_stop_history scenario_PIL_can_open
           scenario_strptime_parses None journal_same_second _ _ []
           Hsorted).
  - reflexivity.
  - vm_compute. reflexivity.
  - vm_compute. reflexivity.
  - vm_compute. reflexivity.
  - discriminate.
Defined.

Lemma recom_row_sound_witness :
  recom_row papule_rows "papule" "Berminyak" = papule_rows !! 1%nat ∧
  ∃ r, papule_rows !! 1%nat = Some r ∧
       r ∈ papule_rows ∧ tingkat r = "papule" ∧
       (jenis_kulit r = "semua" ∨
        ("Berminyak" = "Berminyak" ∧ jenis_kulit r = "oily")).
Proof.
  split; [reflexivity|]. eexists. split; [reflexivity|].
  apply (recom_row_sound papule_rows "papule" "Berminyak"). reflexivity.
Defined.

Lemma confidence_bounds_witness :
  ∃ d, classify [scenario_scores] scenario_labels = Ok d ∧
       ((∀ y, y ∈ scenario_scores → (0 <= y <= 1)%Q) →
        (0 <= acne_confidence d <= 1)%Q) ∧
       ((total scenario_scores == 1)%Q →
        (1 <= inject_Z (Z.of_nat (length scenario_scores))
              * acne_confidence d)%Q).
Proof.
  eexists. split; [reflexivity|].
  apply (confidence_bounds scenario_scores scenario_labels). reflexivity.
Defined.

Lemma loaded_labels_are_stripped_witness :
  load_ml_assets (Some (Ok ())) (Some (Ok labels_text))
    = Some ((), ["blackheads"; "whiteheads"; "lv0"]) ∧
  ["blackheads"; "whiteheads"; "lv0"] ≠ [] ∧
  (∀ label, label ∈ ["blackheads"; "whiteheads"; "lv0"] →
            strip label = label) ∧
  (∀ v d, classify [v] ["blackheads"; "whiteheads"; "lv0"] = Ok d →
          ["blackheads"; "whiteheads"; "lv0"] !! acne_index d
            = Some (acne_class_raw d)).
Proof.
  assert (load_ml_assets (Some (Ok ())) (Some (Ok labels_text))
            = Some ((), ["blackheads"; "whiteheads"; "lv0"])) as Hload
    by (vm_compute; reflexivity).
  split; [exact Hload|].
  exact (loaded_labels_are_stripped _ _ _ _ Hload).
Defined.

Lemma loaded_table_is_normalized_witness :
  load_recommendation_data (Some (Ok raw_frame)) = Some loaded_frame ∧
  ∃ df,
    Some (Ok raw_frame) = Some (Ok df) ∧
    (∀ col, col ∈ required_cols → is_Some (df !! col)) ∧
    dom loaded_frame = dom df ∧
    rows_of loaded_frame =
      (λ row, {| tingkat := sub_trailing_s (lower (tingkat row));
                 jenis_kulit := lower (jenis_kulit row);
                 kandungan := kandungan row;
                 rekomendasi := rekomendasi row |}) <$> rows_of df.
Proof.
  assert (load_recommendation_data (Some (Ok raw_frame)) = Some loaded_frame)
    as Hload by (vm_compute; reflexivity).
  split; [exact Hload|].
  exact (loaded_table_is_normalized _ _ Hload).
Defined.

Example rows_of_loaded_frame :
  rows_of loaded_frame =
    [ {| tingkat := "papule"; jenis_kulit := "semua";
         kandungan := Some "benzoyl peroxide";
         rekomendasi := Some "avoid touching" |};
      {| tingkat := "papule"; jenis_kulit := "oily";
         kandungan := Some "salicylic acid"; rekomendasi := None |};
      {| tingkat := "cystic"; jenis_kulit := "nan";
         kandungan := None; rekomendasi := Some "see a doctor" |} ].
Proof. vm_compute. reflexivity. Qed.

Lemma table_without_required_column_witness :
  "rekomendasi" ∈ required_cols ∧
  delete "rekomendasi" raw_frame !! "rekomendasi" = None ∧
  load_recommendation_data (Some (Ok (delete "rekomendasi" raw_frame)))
    = None.
Proof.
  assert ("rekomendasi" ∈ required_cols) as Hcol.
  { apply (bool_decide_unpack _). vm_compute. exact I. }
  assert (delete "rekomendasi" raw_frame !! "rekomendasi" = None) as Hnone
    by apply lookup_delete_eq.
  split; [exact Hcol|]. split; [exact Hnone|].
  exact (table_without_required_column _ _ Hcol Hnone).
Defined.

Lemma all_options_restrict_nothing_witness :
  (["semua"] ≠ [] ∨ "" ≠ "") ∧
  NoDup (all_tingkat papule_rows) ∧
  (∀ x, x ∈ all_tingkat papule_rows ↔
        ∃ r, r ∈ papule_rows ∧ tingkat r = x) ∧
  perform_search (λ _, None) papule_rows (all_tingkat papule_rows)
    ["semua"] "" =
  perform_search (λ _, None) papule_rows [] ["semua"] "".
Proof.
  assert (["semua"] ≠ [] ∨ "" ≠ "") as Hcrit by (left; discriminate).
  split; [exact Hcrit|].
  exact (all_options_restrict_nothing (λ _, None) papule_rows ["semua"] ""
           Hcrit).
Defined.

Example perform_search_papule :
  perform_search (λ _, None) papule_rows [] ["oily"] "" =
    Found [ {| tingkat := "papule"; jenis_kulit := "oily";
               kandungan := Some "salicylic acid";
               rekomendasi := Some "oil-free moisturizer" |} ] ∧
  perform_search (λ _, None) papule_rows [] [] "" = SelectCriterion ∧
  perform_search (λ _, None) papule_rows [] [] "(" = PatternError.
Proof. vm_compute. repeat split. Qed.
